(** * PIXIE overlay: the [__PIXIE__] dictionary of a compiled extension

    A shallow embedding of [pixie/overlay.py].  The overlay is the payload that
    a PIXIE C-extension runs when it is imported ([bootstrap] calls [main]):
    it either adopts the dictionary of a matching specialized module, or opens
    its own shared object, binds every exported symbol through ctypes and
    installs the resulting dictionary as [obj.__PIXIE__].

    Python objects that the code shares and mutates (module objects and the
    [__PIXIE__] dictionaries) live in a store and are handled by reference;
    effects are threaded through a state-and-exception monad in which
    mutations made before an exception is raised persist, as in Python. *)

From Stdlib Require Import ZArith List Bool Lia.
From Stdlib.Strings Require Import String Ascii Byte.
From stdpp Require Import base option list gmap strings pretty.

Import ListNotations.
Open Scope string_scope.
Open Scope list_scope.

(** ** Exceptions and outcomes *)

(** A Python exception: the name of its class, the names of the classes that
    follow it in its method resolution order, and its argument. *)
Record exn := MkExn {
  exn_class : string;
  exn_bases : list string;
  exn_arg : string
}.

(** The ancestry of the built-in exception classes the overlay meets; a class
    that is not listed derives from [Exception] directly. *)
Definition builtin_bases (cls : string) : list string :=
  if String.eqb cls "ModuleNotFoundError" || String.eqb cls "ZipImportError"
  then ["ImportError"; "Exception"; "BaseException"; "object"]
  else if String.eqb cls "KeyError"
  then ["LookupError"; "Exception"; "BaseException"; "object"]
  else if String.eqb cls "OverflowError"
  then ["ArithmeticError"; "Exception"; "BaseException"; "object"]
  else ["Exception"; "BaseException"; "object"].

(** An exception of a built-in class, or of a class derived from [Exception]
    directly. *)
Definition Exn (cls arg : string) : exn :=
  MkExn cls (builtin_bases cls) arg.

Definition AttributeError (arg : string) : exn := Exn "AttributeError" arg.
Definition KeyError (arg : string) : exn := Exn "KeyError" arg.
Definition TypeError (arg : string) : exn := Exn "TypeError" arg.
Definition ValueError (arg : string) : exn := Exn "ValueError" arg.
Definition SystemError (arg : string) : exn := Exn "SystemError" arg.
Definition OverflowError (arg : string) : exn := Exn "OverflowError" arg.
Definition MemoryError (arg : string) : exn := Exn "MemoryError" arg.

(** [except ImportError] catches an instance of [ImportError] or of any
    class that has [ImportError] among its ancestors, built in
    ([ModuleNotFoundError], [ZipImportError]) or defined by the user. *)
Definition is_ImportError (e : exn) : bool :=
  String.eqb (exn_class e) "ImportError"
  || existsb (String.eqb "ImportError") (exn_bases e).

Inductive outcome (A : Type) : Type :=
| Returns (a : A)
| Raises (e : exn).
Arguments Returns {A} a.
Arguments Raises {A} e.

Definition returned {A} (o : outcome A) : bool :=
  match o with Returns _ => true | Raises _ => false end.

Definition obind {A B} (o : outcome A) (k : A -> outcome B) : outcome B :=
  match o with
  | Returns a => k a
  | Raises e => Raises e
  end.

(** ** ctypes: shared objects, function pointers, prototypes *)

(** The image that [ctypes.CDLL(path)] maps into the process.  [dso_dlsym] is
    the loader's symbol lookup and answers the null address for a name the
    image does not define; [dso_call] is the machine word a native function
    without arguments returns; [dso_read] reads process memory; [dso_alloc]
    tells whether the process has room for a new [bytes] object of the given
    length. *)
Record dso := DSO {
  dso_dlsym : string -> Z;
  dso_call : Z -> Z;
  dso_read : Z -> nat -> list byte;
  dso_alloc : nat -> bool
}.

(** The foreign function object [getattr(DSO, name)] evaluates to. *)
Record funcptr := FuncPtr { fp_name : string; fp_addr : Z }.

(** A ctypes function prototype, the value of a ['ctypes_cfunctype'] string. *)
Inductive cfunctype := CFUNCTYPE (descr : string).

(** The callable a prototype builds around a function pointer. *)
Record cfunc := CFunc { cf_proto : cfunctype; cf_target : funcptr }.

(** Attribute access on a [CDLL]: the symbol is looked up in the image and a
    null answer is reported as [AttributeError]. *)
Definition CDLL_getattr (D : dso) (symbol_name : string) : outcome funcptr :=
  let a := dso_dlsym D symbol_name in
  if (a =? 0)%Z
  then Raises (AttributeError ("undefined symbol: " +:+ symbol_name))
  else Returns (FuncPtr symbol_name a).

(** [ctypes.cast(p, ctypes.c_void_p).value]: [None] for the null pointer. *)
Definition c_void_p_value (a : Z) : option Z :=
  if (a =? 0)%Z then None else Some a.

(** A machine word read back through [restype = ctypes.c_long]. *)
Definition c_long (v : Z) : Z :=
  let r := (v mod 2 ^ 64)%Z in
  if (r <? 2 ^ 63)%Z then r else (r - 2 ^ 64)%Z.

(** A machine word read back through [restype = ctypes.c_void_p]. *)
Definition c_void_p (v : Z) : option Z := c_void_p_value (v mod 2 ^ 64)%Z.

(** ** The [__PIXIE__] dictionary *)

Definition loc := nat.

(** ['ctypes_cfunctype'] holds the prototype's source text until [main]
    replaces it by the prototype itself. *)
Inductive ctypes_field :=
| CtStr (s : string)
| CtBinding (p : cfunctype).

(** The dictionary [main] builds for one feature variant. *)
Record vdict := VDict {
  v_symbol : string;
  v_address : funcptr;
  v_cfunc : cfunc
}.

(** ['feature_variants'] maps a feature to a symbol name until [main]
    replaces it by a map from the feature to the bound [vdict].  Both are
    kept as their [items()] in insertion order. *)
Inductive variants_field :=
| FvRaw (items : list (string * string))
| FvBound (items : list (string * vdict)).

(** The dictionary [add_variant] returns: one signature of one exported
    name.  [None] in [d_address], [d_cfunc] and the provenance fields is
    Python's [None]. *)
Record variant_data := VariantData {
  d_ctypes_cfunctype : ctypes_field;
  d_symbol : string;
  d_module : option string;
  d_source_file : option string;
  d_address : option Z;
  d_cfunc : option cfunc;
  d_feature_variants : variants_field;
  d_baseline_feature : string;
  d_metadata : option string
}.

(** The closure [specialize(obj)] returns; it captures the module. *)
Inductive impl_closure := Impl (obj : loc).

(** The dictionary at the root of a PIXIE extension, as [create_base_payload]
    lays it out.  ['symbols'] maps an exported name to a map from signature
    to [variant_data]; both levels are kept as their [items()].  The key
    ['specialize'] is absent ([None] here) until [main] adds it; [None] in
    [pd_linkage], [pd_bitcode] and [pd_uuid] is Python's [None].

    The root dictionary is shared between the payload and the modules and is
    handled by reference.  What ['symbols'] holds is kept by value: it is the
    literal a built extension embeds, and [main] could not bind a
    [variant_data] reached twice (the second [eval] would meet a prototype
    instead of its source text). *)
Record pixie_dict := PixieDict {
  pd_symbols : list (string * list (string * variant_data));
  pd_c_header : list string;
  pd_linkage : option string;
  pd_bitcode : option (list byte);
  pd_uuid : option string;
  pd_is_specialized : bool;
  pd_specialize : option impl_closure
}.

(** A module object: [__name__], [__file__] and, once set, [__PIXIE__]. *)
Record module_obj := ModuleObj {
  m_name : string;
  m_file : string;
  m_PIXIE : option loc
}.

(** The functions whose source text [create_base_payload] stores under
    ['__PIXIE_assemblers__']. *)
Inductive overlay_fn :=
| Fmain | Fget_bitcode | Faddress_of_symbol | Fbootstrap | Fspecialize.

Definition fn_name (f : overlay_fn) : string :=
  match f with
  | Fmain => "main"
  | Fget_bitcode => "get_bitcode"
  | Faddress_of_symbol => "address_of_symbol"
  | Fbootstrap => "bootstrap"
  | Fspecialize => "specialize"
  end.

(** The payload handed to [main]: the root dictionary (by reference) and the
    assemblers, a map from a name to the source text of an overlay
    function. *)
Record payload := Payload {
  payload_PIXIE : loc;
  payload_assemblers : list (string * overlay_fn)
}.

(** ** The compiler interface used by [specialize] *)

(** The arguments of the compiler: [TranslationUnit(name, source)] and
    [ExportConfiguration(style)] with the symbols added to it. *)
Record TranslationUnit := MkTranslationUnit {
  tu_name : string;
  tu_source : option (list byte)
}.

Record ExportConfiguration := MkExportConfiguration {
  ec_style : string;
  ec_symbols : list (string * string * string)
}.

(** The manifest and the artifact a compilation publishes. *)
Record manifest := Manifest {
  identity : string;
  is_specialized : bool;
  exports : list (string * string * string);
  ir_payload : list TranslationUnit
}.

Record artifact := Artifact {
  art_manifest : manifest;
  art_code : list byte
}.

Definition add_symbol (ec : ExportConfiguration)
    (python_name symbol_name signature : string) : ExportConfiguration :=
  MkExportConfiguration (ec_style ec)
    (ec_symbols ec ++ [(python_name, symbol_name, signature)]).

(** The keyword arguments [specialize] passes to [PIXIECompiler]. *)
Record PIXIECompiler := MkPIXIECompiler {
  library_name : string;
  translation_units : list TranslationUnit;
  export_configuration : ExportConfiguration;
  baseline_cpu : string;
  baseline_features : list string;
  targets_features : list string;
  python_cext : bool;
  uuid : option string;
  output_dir : string
}.

Definition RecompilationFailure : exn := Exn "RecompilationFailure" "".

(** What a call hands back: [None], or an artifact. *)
Inductive value :=
| VNone
| VArtifact (a : artifact).

(** ** The store and the effect monad *)

(** What a run can observe and change: the [__PIXIE__] dictionaries and the
    module objects (by reference), the lines printed, the warnings issued, the
    names handed to [importlib.import_module], the compiler objects whose
    [compile()] was called, and the libraries written to disk (directory,
    library name, artifact). *)
Record world := World {
  heap : gmap loc pixie_dict;
  mods : gmap loc module_obj;
  stdout : list string;
  warnings : list string;
  imported : list string;
  compilations : list PIXIECompiler;
  disk : list (string * string * artifact)
}.

Definition M (A : Type) : Type := world -> outcome A * world.

Definition ret {A} (a : A) : M A := fun w => (Returns a, w).

Definition raise {A} (e : exn) : M A := fun w => (Raises e, w).

Definition bind {A B} (m : M A) (k : A -> M B) : M B :=
  fun w =>
    match m w with
    | (Returns a, w') => k a w'
    | (Raises e, w') => (Raises e, w')
    end.

Definition lift {A} (o : outcome A) : M A := fun w => (o, w).

Declare Scope overlay_scope.
Delimit Scope overlay_scope with overlay.
Notation "'let*' x ':=' m 'in' k" := (bind m (fun x => k))
  (at level 10, x pattern, m at level 100, k at level 200) : overlay_scope.
Notation "m ';;' k" := (bind m (fun _ => k))
  (at level 100, k at level 200, right associativity) : overlay_scope.
Open Scope overlay_scope.

(** *** Store primitives *)

Definition set_heap (h : gmap loc pixie_dict) (w : world) : world :=
  World h (mods w) (stdout w) (warnings w) (imported w) (compilations w)
        (disk w).

Definition set_mods (ms : gmap loc module_obj) (w : world) : world :=
  World (heap w) ms (stdout w) (warnings w) (imported w) (compilations w)
        (disk w).

Definition log_stdout (line : string) (w : world) : world :=
  World (heap w) (mods w) (stdout w ++ [line]) (warnings w) (imported w)
        (compilations w) (disk w).

Definition log_warning (msg : string) (w : world) : world :=
  World (heap w) (mods w) (stdout w) (warnings w ++ [msg]) (imported w)
        (compilations w) (disk w).

Definition log_import (name : string) (w : world) : world :=
  World (heap w) (mods w) (stdout w) (warnings w) (imported w ++ [name])
        (compilations w) (disk w).

Definition log_compilation (lib : PIXIECompiler) (w : world) : world :=
  World (heap w) (mods w) (stdout w) (warnings w) (imported w)
        (compilations w ++ [lib]) (disk w).

Definition publish (dir name : string) (a : artifact) (w : world) : world :=
  World (heap w) (mods w) (stdout w) (warnings w) (imported w)
        (compilations w) (disk w ++ [(dir, name, a)]).

(** Dereferencing a module or dictionary reference.  A reference that the
    store does not hold cannot arise in Python; it is reported as a
    [SystemError]. *)
Definition get_module (obj : loc) : M module_obj :=
  fun w =>
    match mods w !! obj with
    | Some m => (Returns m, w)
    | None => (Raises (SystemError "dangling module reference"), w)
    end.

Definition get_dict (l : loc) : M pixie_dict :=
  fun w =>
    match heap w !! l with
    | Some d => (Returns d, w)
    | None => (Raises (SystemError "dangling dict reference"), w)
    end.

(** [d[key] = value] on the dictionary at [l]. *)
Definition update_dict (l : loc) (f : pixie_dict -> pixie_dict) : M unit :=
  fun w =>
    match heap w !! l with
    | Some d => (Returns tt, set_heap (<[l := f d]> (heap w)) w)
    | None => (Raises (SystemError "dangling dict reference"), w)
    end.

(** [obj.__PIXIE__ = l]. *)
Definition set_module_PIXIE (obj : loc) (l : loc) : M unit :=
  fun w =>
    match mods w !! obj with
    | Some m =>
        (Returns tt,
         set_mods (<[obj := ModuleObj (m_name m) (m_file m) (Some l)]> (mods w)) w)
    | None => (Raises (SystemError "dangling module reference"), w)
    end.

(** [obj.__PIXIE__]: an [AttributeError] while the attribute is not set. *)
Definition get_module_PIXIE (obj : loc) : M loc :=
  let* m := get_module obj in
  match m_PIXIE m with
  | Some l => ret l
  | None => raise (AttributeError "__PIXIE__")
  end.

Definition print (line : string) : M unit :=
  fun w => (Returns tt, log_stdout line w).

Definition warnings_warn (msg : string) : M unit :=
  fun w => (Returns tt, log_warning msg w).

(** Field updates of the root dictionary. *)
Definition set_symbols (s : list (string * list (string * variant_data)))
    (d : pixie_dict) : pixie_dict :=
  PixieDict s (pd_c_header d) (pd_linkage d) (pd_bitcode d) (pd_uuid d)
            (pd_is_specialized d) (pd_specialize d).

Definition set_bitcode (b : option (list byte)) (d : pixie_dict) : pixie_dict :=
  PixieDict (pd_symbols d) (pd_c_header d) (pd_linkage d) b (pd_uuid d)
            (pd_is_specialized d) (pd_specialize d).

Definition set_is_specialized (b : bool) (d : pixie_dict) : pixie_dict :=
  PixieDict (pd_symbols d) (pd_c_header d) (pd_linkage d) (pd_bitcode d)
            (pd_uuid d) b (pd_specialize d).

Definition set_specialize (c : option impl_closure) (d : pixie_dict) : pixie_dict :=
  PixieDict (pd_symbols d) (pd_c_header d) (pd_linkage d) (pd_bitcode d)
            (pd_uuid d) (pd_is_specialized d) c.

(** Field updates of a [variant_data]. *)
Definition set_ctypes_cfunctype (c : ctypes_field) (d : variant_data) : variant_data :=
  VariantData c (d_symbol d) (d_module d) (d_source_file d) (d_address d)
              (d_cfunc d) (d_feature_variants d) (d_baseline_feature d)
              (d_metadata d).

Definition set_address (a : option Z) (d : variant_data) : variant_data :=
  VariantData (d_ctypes_cfunctype d) (d_symbol d) (d_module d)
              (d_source_file d) a (d_cfunc d) (d_feature_variants d)
              (d_baseline_feature d) (d_metadata d).

Definition set_cfunc (c : option cfunc) (d : variant_data) : variant_data :=
  VariantData (d_ctypes_cfunctype d) (d_symbol d) (d_module d)
              (d_source_file d) (d_address d) c (d_feature_variants d)
              (d_baseline_feature d) (d_metadata d).

Definition set_feature_variants (v : variants_field) (d : variant_data) : variant_data :=
  VariantData (d_ctypes_cfunctype d) (d_symbol d) (d_module d)
              (d_source_file d) (d_address d) (d_cfunc d) v
              (d_baseline_feature d) (d_metadata d).

(** ** Auxiliary functions of the overlay *)

(** [address_of_symbol(DSO, symbol_name)]: [getattr(DSO, symbol_name)]. *)
Definition address_of_symbol (D : dso) (symbol_name : string) : outcome funcptr :=
  CDLL_getattr D symbol_name.

(** The longest [bytes] object: [PY_SSIZE_T_MAX] less the size of the
    object's header and its terminating byte, on a 64-bit interpreter. *)
Definition PY_SSIZE_T_MAX : Z := (2 ^ 63 - 1)%Z.
Definition PyBytesObject_SIZE : Z := 33%Z.

(** [bytes(array)] for an array of [n] characters at address [a]: the copy
    needs a [bytes] object of [n] bytes, which may be too long for any
    [bytes] object or for the memory the process has left. *)
Definition bytes_from_address (D : dso) (a n : Z) : outcome (list byte) :=
  if (PY_SSIZE_T_MAX - PyBytesObject_SIZE <? n)%Z
  then Raises (OverflowError "byte string is too large")
  else if dso_alloc D (Z.to_nat n)
  then Returns (dso_read D a (Z.to_nat n))
  else Raises (MemoryError "").

(** [get_bitcode(DSO, obj)]: the embedded bitcode, read through the two
    accessor functions the library exports for the module's name.  The array
    type [c_char * n] needs a length that is not negative,
    [from_address] an integer address ([c_void_p] yields [None] for null),
    and [bytes] room for the copy. *)
Definition get_bitcode (D : dso) (obj : module_obj) : outcome (list byte) :=
  let mod_name := m_name obj in
  let sz_name := "get_bitcode_for_" +:+ mod_name +:+ "_size" in
  let data_name := "get_bitcode_for_" +:+ mod_name in
  obind (CDLL_getattr D sz_name) (fun sz_fptr =>
  obind (CDLL_getattr D data_name) (fun data_fptr =>
  let n := c_long (dso_call D (fp_addr sz_fptr)) in
  if (n <? 0)%Z
  then Raises (ValueError ("Array length must be >= 0, not " +:+ pretty n))
  else
    match c_void_p (dso_call D (fp_addr data_fptr)) with
    | None => Raises (TypeError "integer expected")
    | Some a => bytes_from_address D a n
    end)).

(** [get_nil(function)]: the body is [pass]. *)
Definition get_nil {A} (function : A) : outcome unit := Returns tt.

(** [add_variant(ctypes_func_string, raw_symbol, baseline, feature_variants,
    module, source_file, metadata)]: the last four arguments default to
    [None].  The function builds a dictionary and returns it; it has no
    statement that raises. *)
Definition add_variant (ctypes_func_string raw_symbol baseline : string)
    (feature_variants : option (list (string * string)))
    (module source_file metadata : option string) : outcome variant_data :=
  let _feature_variants :=
    match feature_variants with
    | Some fv => fv
    | None => []
    end in
  Returns {| d_ctypes_cfunctype := CtStr ctypes_func_string;
             d_symbol := raw_symbol;
             d_module := module;
             d_source_file := source_file;
             d_address := None;
             d_cfunc := None;
             d_feature_variants := FvRaw _feature_variants;
             d_baseline_feature := baseline;
             d_metadata := metadata |}.

(** The two dictionaries of [create_base_payload]. *)
Definition PIXIE_dunder : pixie_dict :=
  {| pd_symbols := [];
     pd_c_header := ["<write it>"];
     pd_linkage := None;
     pd_bitcode := None;
     pd_uuid := None;
     pd_is_specialized := false;
     pd_specialize := None |}.

Definition PIXIE_assemblers : list (string * overlay_fn) :=
  [("main", Fmain); ("get_bitcode", Fget_bitcode);
   ("address_of_symbol", Faddress_of_symbol); ("bootstrap", Fbootstrap);
   ("specialize", Fspecialize)].

(** [create_base_payload()]: the root dictionary is a new object. *)
Definition create_base_payload : M payload :=
  fun w =>
    let l := fresh (dom (heap w)) in
    (Returns (Payload l PIXIE_assemblers),
     set_heap (<[l := PIXIE_dunder]> (heap w)) w).

(** ** Strings the overlay builds *)

Definition newline : string := String (ascii_of_nat 10) EmptyString.

(** [str(module)]. *)
Definition module_str (m : module_obj) : string :=
  "<module '" +:+ m_name m +:+ "' from '" +:+ m_file m +:+ "'>".

(** [str(x)] of a value that may be [None]. *)
Definition str_opt (o : option string) : string :=
  match o with
  | Some s => s
  | None => "None"
  end.

(** The directory part of [os.path.split(p)] on a POSIX path: everything up
    to the last slash, without trailing slashes unless it consists of
    slashes only. *)
Fixpoint rstrip_slash_rev (r : list ascii) : list ascii :=
  match r with
  | c :: r' => if Ascii.eqb c "/" then rstrip_slash_rev r' else r
  | [] => []
  end.

Fixpoint drop_tail_rev (r : list ascii) : list ascii :=
  match r with
  | c :: r' => if Ascii.eqb c "/" then r else drop_tail_rev r'
  | [] => []
  end.

Definition os_path_split_head (p : string) : string :=
  let head_rev := drop_tail_rev (rev (list_ascii_of_string p)) in
  match rstrip_slash_rev head_rev with
  | [] => string_of_list_ascii (rev head_rev)
  | stripped => string_of_list_ascii (rev stripped)
  end.

(** The collaborators of the overlay: the import system, the host loader,
    the evaluation of a prototype's source text by [eval], llvmlite's
    [get_host_cpu_name()], the code-generation backend (its answer is [None]
    when it fails) and the source of new identities.  A module that
    [import_module] answers with is in the store, initialised. *)
Record collaborators := Collaborators {
  import_module : string -> outcome loc;
  CDLL : string -> outcome dso;
  eval_cfunctype : string -> outcome cfunctype;
  get_host_cpu_name : string;
  backend :
    list TranslationUnit -> string -> list string ->
    list (string * string * string) -> option (list byte);
  fresh_uuid : string
}.

Section Overlay.

Variable E : collaborators.

(** Modelled from the spec: [PIXIECompiler.compile], the Artifact Packager
    that drives the code-generation backend, is not among the sources.
    Following the specification, the backend receives the IR payload, the
    target and the table of exported names; its failure is reported as
    [RecompilationFailure] and nothing is published; on success the new
    artifact is written under the library's name in the output directory,
    stamped with the identity that was carried forward, or with a new one
    when none was given, and marked as specialized. *)
Definition compile (lib : PIXIECompiler) : M unit :=
  fun w =>
    let w1 := log_compilation lib w in
    match backend E (translation_units lib) (baseline_cpu lib)
                  (baseline_features lib)
                  (ec_symbols (export_configuration lib)) with
    | None => (Raises RecompilationFailure, w1)
    | Some code =>
        let mf :=
          {| identity := match uuid lib with
                         | Some u => u
                         | None => fresh_uuid E
                         end;
             is_specialized := true;
             exports := ec_symbols (export_configuration lib);
             ir_payload := translation_units lib |} in
        (Returns tt,
         publish (output_dir lib) (library_name lib) (Artifact mf code) w1)
    end.

(** ** [specialize] *)

(** The two loops that register every (name, signature) with its symbol. *)
Definition export_overloads (pysym : string)
    (variants : list (string * variant_data))
    (ec : ExportConfiguration) : ExportConfiguration :=
  fold_left (fun ec (item : string * variant_data) =>
               add_symbol ec pysym (d_symbol (snd item)) (fst item))
            variants ec.

Definition export_symbols
    (symbols : list (string * list (string * variant_data)))
    (ec : ExportConfiguration) : ExportConfiguration :=
  fold_left (fun ec (item : string * list (string * variant_data)) =>
               export_overloads (fst item) (snd item) ec)
            symbols ec.

Definition specialized_lib_name (module : module_obj) : string :=
  m_name module +:+ "_pixie_specialized".

(** The compiler object [impl] constructs. *)
Definition specialize_request (module : module_obj) (d : pixie_dict)
    (target_cpu : string) (target_features : list string) : PIXIECompiler :=
  let bitcode := pd_bitcode d in
  let outdir := os_path_split_head (m_file module) in
  let export_config :=
    export_symbols (pd_symbols d) (MkExportConfiguration "embed_dso" []) in
  let tus := [MkTranslationUnit "self" bitcode] in
  {| library_name := specialized_lib_name module;
     translation_units := tus;
     export_configuration := export_config;
     baseline_cpu := target_cpu;
     baseline_features := target_features;
     targets_features := [];
     python_cext := true;
     uuid := pd_uuid d;
     output_dir := outdir |}.

Definition target_cpu_of (cpu : string) : string :=
  if String.eqb cpu "host" then get_host_cpu_name E else cpu.

Definition target_features_of (features : option (list string)) : list string :=
  match features with
  | None => []
  | Some fs => fs
  end.

(** [impl(baseline_cpu='host', baseline_features=None)], the closure
    [specialize(obj)] returns.  It has no [return] statement.  The features
    in the first printed line are rendered as a plain list. *)
Definition impl (obj : loc) (cpu : string) (features : option (list string))
  : M value :=
  let target_cpu := target_cpu_of cpu in
  let target_features := target_features_of features in
  print ("Specialising library for: " +:+ target_cpu +:+ " ("
         +:+ String.concat ", " target_features +:+ ")") ;;
  let* l := get_module_PIXIE obj in
  let* d := get_dict l in
  let* module := get_module obj in
  print ("specialization of " +:+ module_str module +:+ " has uuid "
         +:+ str_opt (pd_uuid d)) ;;
  let lib := specialize_request module d target_cpu target_features in
  compile lib ;;
  ret VNone.

Definition specialize (obj : loc) : impl_closure := Impl obj.

(** Calling a closure, with the defaults of [impl] for absent arguments. *)
Definition call_impl (c : impl_closure) (cpu : option string)
    (features : option (list string)) : M value :=
  match c with
  | Impl obj =>
      impl obj (match cpu with Some s => s | None => "host" end) features
  end.

(** ** [main] *)

Definition sbs_name (obj : module_obj) : string :=
  m_name obj +:+ "_pixie_specialized".

(** [importlib.import_module(name)] under [try: ... except ImportError:
    pass]: the result is [None] when the import fails with an
    [ImportError]; any other exception propagates. *)
Definition try_import (name : string) : M (option loc) :=
  fun w =>
    let w' := log_import name w in
    match import_module E name with
    | Returns sm => (Returns (Some sm), w')
    | Raises e =>
        if is_ImportError e then (Returns None, w') else (Raises e, w')
    end.

(** [==] on identities, which are strings or [None]. *)
Definition uuid_eqb (a b : option string) : bool :=
  match a, b with
  | Some x, Some y => String.eqb x y
  | None, None => true
  | _, _ => false
  end.

(** What [lcls[fn]] can be after [exec(func_dict[fn], lcls)] with
    [lcls = {'ctypes': ctypes}]: the function the text defines, the
    [ctypes] module, or the builtins that [exec] adds. *)
Inductive pyfn :=
| OverlayFn (f : overlay_fn)
| CtypesModule
| Builtins.

Definition exec_lookup (fn : string) (src : overlay_fn) : outcome pyfn :=
  if String.eqb fn (fn_name src) then Returns (OverlayFn src)
  else if String.eqb fn "ctypes" then Returns CtypesModule
  else if String.eqb fn "__builtins__" then Returns Builtins
  else Raises (KeyError fn).

(** The loop over [func_dict.keys()] that fills [fns]. *)
Fixpoint exec_assemblers (func_dict : list (string * overlay_fn))
    (fns : gmap string pyfn) : outcome (gmap string pyfn) :=
  match func_dict with
  | [] => Returns fns
  | (fn, src) :: rest =>
      obind (exec_lookup fn src) (fun f =>
      exec_assemblers rest (<[fn := f]> fns))
  end.

(** [fns["address_of_symbol"](DSO, symbol)]. *)
Definition call_address_of_symbol (fns : gmap string pyfn) (D : dso)
    (symbol : string) : outcome funcptr :=
  match fns !! "address_of_symbol" with
  | None => Raises (KeyError "address_of_symbol")
  | Some (OverlayFn Faddress_of_symbol) => address_of_symbol D symbol
  | Some _ => Raises (TypeError "address_of_symbol")
  end.

(** [fns["get_bitcode"](DSO, obj)]. *)
Definition call_get_bitcode (fns : gmap string pyfn) (D : dso)
    (obj : module_obj) : outcome (list byte) :=
  match fns !! "get_bitcode" with
  | None => Raises (KeyError "get_bitcode")
  | Some (OverlayFn Fget_bitcode) => get_bitcode D obj
  | Some _ => Raises (TypeError "get_bitcode")
  end.

(** [fns["specialize"](obj)]. *)
Definition call_specialize (fns : gmap string pyfn) (obj : loc)
  : outcome impl_closure :=
  match fns !! "specialize" with
  | None => Raises (KeyError "specialize")
  | Some (OverlayFn Fspecialize) => Returns (specialize obj)
  | Some _ => Raises (TypeError "specialize")
  end.

(** [eval(ctypes_str, {'ctypes': ctypes}, {})]: [eval] takes source text
    only. *)
Definition eval_field (c : ctypes_field) : outcome cfunctype :=
  match c with
  | CtStr s => eval_cfunctype E s
  | CtBinding _ => Raises (TypeError "eval() arg 1 must be a string")
  end.

(** The loop over [variants.items()]: it fills the new dictionary [tmp],
    which is dropped when a lookup fails. *)
Fixpoint bind_variants (fns : gmap string pyfn) (D : dso)
    (ctbinding : cfunctype) (variants : list (string * string))
  : outcome (list (string * vdict)) :=
  match variants with
  | [] => Returns []
  | (variant, symbol) :: rest =>
      obind (call_address_of_symbol fns D symbol) (fun address =>
      let vd := {| v_symbol := symbol;
                   v_address := address;
                   v_cfunc := CFunc ctbinding address |} in
      obind (bind_variants fns D ctbinding rest) (fun tmp =>
      Returns ((variant, vd) :: tmp)))
  end.

(** The items of ['feature_variants'] as the inner loop meets them: a
    symbol that is not a string cannot be looked up. *)
Definition bind_feature_variants (fns : gmap string pyfn) (D : dso)
    (ctbinding : cfunctype) (v : variants_field)
  : outcome (list (string * vdict)) :=
  match v with
  | FvRaw variants => bind_variants fns D ctbinding variants
  | FvBound [] => Returns []
  | FvBound (_ :: _) =>
      match fns !! "address_of_symbol" with
      | None => Raises (KeyError "address_of_symbol")
      | Some _ => Raises (TypeError "attribute name must be string")
      end
  end.

(** The body of the loop over [overloads.items()]: [data] is updated in
    place, so the assignments made before a failure remain. *)
Definition bind_data (fns : gmap string pyfn) (D : dso)
    (data : variant_data) : outcome unit * variant_data :=
  match eval_field (d_ctypes_cfunctype data) with
  | Raises e => (Raises e, data)
  | Returns ctbinding =>
      let data1 := set_ctypes_cfunctype (CtBinding ctbinding) data in
      match call_address_of_symbol fns D (d_symbol data1) with
      | Raises e => (Raises e, data1)
      | Returns ct_fptr =>
          let raw_address := c_void_p_value (fp_addr ct_fptr) in
          let data2 := set_address raw_address data1 in
          let data3 := set_cfunc (Some (CFunc ctbinding ct_fptr)) data2 in
          match bind_feature_variants fns D ctbinding
                  (d_feature_variants data3) with
          | Raises e => (Raises e, data3)
          | Returns tmp =>
              (Returns tt, set_feature_variants (FvBound tmp) data3)
          end
      end
  end.

(** A [for key, value in d.items()] loop whose body updates [value] in
    place and may raise: the items after the failing one are untouched. *)
Fixpoint for_items {V : Type} (body : V -> outcome unit * V)
    (items : list (string * V)) : outcome unit * list (string * V) :=
  match items with
  | [] => (Returns tt, [])
  | (k, v) :: rest =>
      match body v with
      | (Raises e, v') => (Raises e, (k, v') :: rest)
      | (Returns _, v') =>
          let (r, rest') := for_items body rest in
          (r, (k, v') :: rest')
      end
  end.

Definition bind_symbols (fns : gmap string pyfn) (D : dso)
    (symbols : list (string * list (string * variant_data)))
  : outcome unit * list (string * list (string * variant_data)) :=
  for_items (for_items (bind_data fns D)) symbols.

(** The part of [main] after the specialized module has been ruled out.
    [bind_payload] opens the module's own shared object, binds every symbol
    of the payload's dictionary in place and fills in ['bitcode'] and
    ['specialize']; [generic_load] then writes the dictionary in as
    [obj.__PIXIE__]. *)
Definition bind_payload (PIXIE_payload : payload) (obj : loc) : M unit :=
  let* m := get_module obj in
  let* D := lift (CDLL E (m_file m)) in
  let pixie_dict_raw := payload_PIXIE PIXIE_payload in
  let func_dict := payload_assemblers PIXIE_payload in
  let* fns := lift (exec_assemblers func_dict ∅) in
  let* d := get_dict pixie_dict_raw in
  let bound := bind_symbols fns D (pd_symbols d) in
  update_dict pixie_dict_raw (set_symbols (snd bound)) ;;
  lift (fst bound) ;;
  let* bc := lift (call_get_bitcode fns D m) in
  update_dict pixie_dict_raw (set_bitcode (Some bc)) ;;
  let* sp := lift (call_specialize fns obj) in
  update_dict pixie_dict_raw (set_specialize (Some sp)).

Definition generic_load (PIXIE_payload : payload) (obj : loc) : M unit :=
  bind_payload PIXIE_payload obj ;;
  set_module_PIXIE obj (payload_PIXIE PIXIE_payload).

Definition loaded_msg (specialized_mod obj : module_obj) : string :=
  newline +:+ "Loaded specialized module " +:+ module_str specialized_mod
  +:+ " in place of " +:+ module_str obj.

Definition mismatch_msg (specialized_mod obj : module_obj) : string :=
  "UUID of specialized module " +:+ module_str specialized_mod
  +:+ " does not match that of imported module " +:+ module_str obj
  +:+ ", specialization will not be used.".

(** The branch taken when the specialized module was imported.  The
    result tells whether [main] returns from inside the branch. *)
Definition adopt_specialized (PIXIE_payload : payload) (obj : loc)
    (specialized_mod : loc) : M bool :=
  let* pd := get_dict (payload_PIXIE PIXIE_payload) in
  let payload_uuid := pd_uuid pd in
  let* ls := get_module_PIXIE specialized_mod in
  let* sd := get_dict ls in
  let specialized_uuid := pd_uuid sd in
  let* sm := get_module specialized_mod in
  let* m := get_module obj in
  if uuid_eqb payload_uuid specialized_uuid then
    set_module_PIXIE obj ls ;;
    let* l := get_module_PIXIE obj in
    update_dict l (set_is_specialized true) ;;
    print (loaded_msg sm m) ;;
    ret true
  else
    warnings_warn (mismatch_msg sm m) ;;
    ret false.

(** [main(PIXIE_payload, obj)]. *)
Definition main (PIXIE_payload : payload) (obj : loc) : M unit :=
  let* m := get_module obj in
  let* specialized_mod := try_import (sbs_name m) in
  let* finished :=
    match specialized_mod with
    | Some sm => adopt_specialized PIXIE_payload obj sm
    | None => ret false
    end in
  if finished then ret tt else generic_load PIXIE_payload obj.

(** [bootstrap(obj)]: the trampoline to [main]; the builder binds the
    global [payload]. *)
Definition bootstrap (payload : payload) (obj : loc) : M unit :=
  main payload obj.

End Overlay.

(** ** The dispatch rule of the specification *)

(** The specification's Feature Set Model and selection rule, written from
    its words to be compared with what [main] binds: a variant is a pair of
    the features it requires and its symbol; the selected variant is the
    first one of maximal specificity among those the host satisfies. *)
Module DispatchSpec.

Definition satisfies (host required : list string) : bool :=
  forallb (fun f => existsb (String.eqb f) host) required.

Definition specificity (fs : list string) : nat := length fs.

Fixpoint select (host : list string) (group : list (list string * string))
  : option (list string * string) :=
  match group with
  | [] => None
  | v :: rest =>
      if satisfies host (fst v) then
        match select host rest with
        | Some v' =>
            if Nat.ltb (specificity (fst v)) (specificity (fst v'))
            then Some v' else Some v
        | None => Some v
        end
      else select host rest
  end.

(** The Variant Group a [variant_data] stands for: the baseline, which
    requires nothing, followed by one variant per feature. *)
Definition group_of (data : variant_data) : list (list string * string) :=
  ([], d_symbol data) ::
  match d_feature_variants data with
  | FvRaw items => map (fun kv => ([fst kv], snd kv)) items
  | FvBound items => map (fun kv => ([fst kv], v_symbol (snd kv))) items
  end.

End DispatchSpec.

(** The symbols for which a [variant_data] holds a callable. *)
Definition bound_symbols (data : variant_data) : list string :=
  match d_cfunc data with
  | Some c => [fp_name (cf_target c)]
  | None => []
  end ++
  match d_feature_variants data with
  | FvRaw _ => []
  | FvBound items => map (fun kv => fp_name (cf_target (v_cfunc (snd kv)))) items
  end.

(** ** A worked scenario

    A library [lib] that exports [add] with a baseline and an [avx2] variant,
    its image, and a specialized counterpart. *)
Module Scenario.

Definition add_data : variant_data :=
  {| d_ctypes_cfunctype := CtStr "ctypes.CFUNCTYPE(ctypes.c_long)";
     d_symbol := "add_base";
     d_module := None;
     d_source_file := None;
     d_address := None;
     d_cfunc := None;
     d_feature_variants := FvRaw [("avx2", "add_avx2")];
     d_baseline_feature := "sse2";
     d_metadata := None |}.

Definition lib_dict (identity : string) : pixie_dict :=
  {| pd_symbols := [("add", [("i64(i64,i64)", add_data)])];
     pd_c_header := ["<write it>"];
     pd_linkage := None;
     pd_bitcode := None;
     pd_uuid := Some identity;
     pd_is_specialized := false;
     pd_specialize := None |}.

Definition lib_module : module_obj :=
  {| m_name := "lib"; m_file := "/opt/pixie/lib.so"; m_PIXIE := None |}.

Definition specialized_module : module_obj :=
  {| m_name := "lib_pixie_specialized";
     m_file := "/opt/pixie/lib_pixie_specialized.so";
     m_PIXIE := Some 20 |}.

Definition lib_payload : payload := Payload 10 PIXIE_assemblers.

(** The image of [lib]: both variants of [add] and the bitcode accessors. *)
Definition image : dso :=
  {| dso_dlsym := fun s =>
       if String.eqb s "add_base" then 4096%Z
       else if String.eqb s "add_avx2" then 8192%Z
       else if String.eqb s "get_bitcode_for_lib_size" then 12288%Z
       else if String.eqb s "get_bitcode_for_lib" then 16384%Z
       else 0%Z;
     dso_call := fun a => if (a =? 12288)%Z then 2%Z else 20480%Z;
     dso_read := fun a n => repeat "B"%byte n;
     dso_alloc := fun n => Nat.leb n 4096 |}.

(** The same image without the [avx2] variant. *)
Definition image_without_avx2 : dso :=
  {| dso_dlsym := fun s =>
       if String.eqb s "add_avx2" then 0%Z else dso_dlsym image s;
     dso_call := dso_call image;
     dso_read := dso_read image;
     dso_alloc := dso_alloc image |}.

(** No specialized module can be imported. *)
Definition generic_only : collaborators :=
  {| import_module := fun name => Raises (Exn "ModuleNotFoundError" name);
     CDLL := fun path => Returns image;
     eval_cfunctype := fun s => Returns (CFUNCTYPE s);
     get_host_cpu_name := "skylake";
     backend := fun tus cpu features symbols => Some ["C"%byte];
     fresh_uuid := "F0" |}.

(** The specialized module is importable. *)
Definition with_specialized : collaborators :=
  {| import_module := fun name =>
       if String.eqb name "lib_pixie_specialized" then Returns 2
       else Raises (Exn "ModuleNotFoundError" name);
     CDLL := CDLL generic_only;
     eval_cfunctype := eval_cfunctype generic_only;
     get_host_cpu_name := "skylake";
     backend := backend generic_only;
     fresh_uuid := "F0" |}.

(** The image lacks a symbol the manifest names. *)
Definition malformed : collaborators :=
  {| import_module := import_module generic_only;
     CDLL := fun path => Returns image_without_avx2;
     eval_cfunctype := eval_cfunctype generic_only;
     get_host_cpu_name := "skylake";
     backend := backend generic_only;
     fresh_uuid := "F0" |}.

(** The specialized module is importable and the image of [lib] lacks a
    symbol the manifest names. *)
Definition specialized_beside_malformed : collaborators :=
  {| import_module := import_module with_specialized;
     CDLL := CDLL malformed;
     eval_cfunctype := eval_cfunctype generic_only;
     get_host_cpu_name := "skylake";
     backend := backend generic_only;
     fresh_uuid := "F0" |}.

(** The code-generation backend fails. *)
Definition failing_backend : collaborators :=
  {| import_module := import_module generic_only;
     CDLL := CDLL generic_only;
     eval_cfunctype := eval_cfunctype generic_only;
     get_host_cpu_name := "skylake";
     backend := fun tus cpu features symbols => None;
     fresh_uuid := "F0" |}.

(** [lib] is being initialised; the specialized module, whose dictionary
    carries the identity given, has been initialised already. *)
Definition unloaded (specialized_identity : string) : world :=
  {| heap := {[ 10 := lib_dict "A1"; 20 := lib_dict specialized_identity ]};
     mods := {[ 1 := lib_module; 2 := specialized_module ]};
     stdout := [];
     warnings := [];
     imported := [];
     compilations := [];
     disk := [] |}.

(** [lib] after its generic load. *)
Definition loaded : world :=
  snd (main generic_only lib_payload 1 (unloaded "A1")).




End Scenario.

(** * Notions used by the statements *)

Section Notions.

Variable E : collaborators.

(** The two lines [impl] prints before it compiles. *)
Definition impl_banner (cpu : string) (features : option (list string)) : string :=
  "Specialising library for: " +:+ target_cpu_of E cpu +:+ " ("
  +:+ String.concat ", " (target_features_of features) +:+ ")".

Definition impl_uuid_line (m : module_obj) (d : pixie_dict) : string :=
  "specialization of " +:+ module_str m +:+ " has uuid "
  +:+ str_opt (pd_uuid d).

(** The backend's answer to the request [impl] builds for a module. *)
Definition backend_answer (m : module_obj) (d : pixie_dict) (cpu : string)
    (features : option (list string)) : option (list byte) :=
  let lib := specialize_request m d (target_cpu_of E cpu)
                                (target_features_of features) in
  backend E (translation_units lib) (baseline_cpu lib)
            (baseline_features lib) (ec_symbols (export_configuration lib)).

(** [keeps f m]: running [m] does not change the component [f] of the
    world. *)
Definition keeps {X A} (f : world -> X) (m : M A) : Prop :=
  forall w, f (snd (m w)) = f w.

(** The world [main] leaves when it adopts the specialized module. *)
Definition adopted (obj : loc) (m smod : module_obj) (ls : loc)
    (sd : pixie_dict) (w : world) : world :=
  log_stdout (loaded_msg smod m)
    (set_heap (<[ls := set_is_specialized true sd]> (heap w))
       (set_mods (<[obj := ModuleObj (m_name m) (m_file m) (Some ls)]>
                    (mods w))
          (log_import (sbs_name m) w))).

(** The state in which the module serves the specialized module's
    dictionary: both modules refer to one dictionary, whose
    ['is_specialized'] is [True]. *)
Definition SpecializedLoaded (w : world) (obj specialized_mod : loc) : Prop :=
  exists m sm l d,
    mods w !! obj = Some m /\ mods w !! specialized_mod = Some sm
    /\ m_PIXIE m = Some l /\ m_PIXIE sm = Some l
    /\ heap w !! l = Some d /\ pd_is_specialized d = true.

(** The items of ['feature_variants'] that the inner loop binds. *)
Definition raw_items (v : variants_field) : list (string * string) :=
  match v with
  | FvRaw items => items
  | FvBound _ => []
  end.

(** What a successful load leaves for one feature variant and for one
    [variant_data], given the image and the prototype. *)
Definition bound_variant (D : dso) (proto : cfunctype)
    (kv : string * string) : string * vdict :=
  let fp := FuncPtr (snd kv) (dso_dlsym D (snd kv)) in
  (fst kv, {| v_symbol := snd kv; v_address := fp;
              v_cfunc := CFunc proto fp |}).

Definition resolved (D : dso) (proto : cfunctype) (data : variant_data)
  : variant_data :=
  let fp := FuncPtr (d_symbol data) (dso_dlsym D (d_symbol data)) in
  {| d_ctypes_cfunctype := CtBinding proto;
     d_symbol := d_symbol data;
     d_module := d_module data;
     d_source_file := d_source_file data;
     d_address := Some (dso_dlsym D (d_symbol data));
     d_cfunc := Some (CFunc proto fp);
     d_feature_variants :=
       FvBound (map (bound_variant D proto)
                    (raw_items (d_feature_variants data)));
     d_baseline_feature := d_baseline_feature data;
     d_metadata := d_metadata data |}.

(** The symbols one [variant_data] names, and those a manifest names. *)
Definition data_symbols (data : variant_data) : list string :=
  d_symbol data :: map snd (raw_items (d_feature_variants data)).

Definition manifest_symbols
    (symbols : list (string * list (string * variant_data))) : list string :=
  flat_map (fun g => flat_map (fun o => data_symbols (snd o)) (snd g)) symbols.

(** A manifest bound group by group: names and signatures are kept, and
    each [variant_data] is [resolved] against symbols the image has. *)
Definition data_resolved (D : dso) (data data' : variant_data) : Prop :=
  exists proto,
    eval_field E (d_ctypes_cfunctype data) = Returns proto
    /\ data' = resolved D proto data
    /\ Forall (fun s => dso_dlsym D s <> 0%Z) (data_symbols data).

Definition overloads_resolved (D : dso)
    (overloads overloads' : list (string * variant_data)) : Prop :=
  Forall2 (fun o o' => fst o = fst o' /\ data_resolved D (snd o) (snd o'))
          overloads overloads'.

Definition symbols_resolved (D : dso)
    (symbols symbols' : list (string * list (string * variant_data))) : Prop :=
  Forall2 (fun g g' =>
             fst g = fst g' /\ overloads_resolved D (snd g) (snd g'))
          symbols symbols'.

(** The dictionary a successful [bind_payload] leaves at the payload's
    reference. *)
Definition bound_dict (d : pixie_dict)
    (symbols' : list (string * list (string * variant_data)))
    (bc : list byte) (obj : loc) : pixie_dict :=
  set_specialize (Some (specialize obj))
    (set_bitcode (Some bc) (set_symbols symbols' d)).






End Notions.

(** The dispatch rule as the specification states it, for one group: the
    resolver binds exactly the variant that [DispatchSpec.select] names. *)
Definition binds_exactly_selected (host : list string)
    (data data' : variant_data) : Prop :=
  exists v,
    DispatchSpec.select host (DispatchSpec.group_of data) = Some v
    /\ bound_symbols data' = [snd v].

(** * Notions for the rest of the overlay *)

(** The exports [impl] registers with the compiler: for every exported name
    and every signature, in the order of the dictionary, the name, the
    compiled symbol of the baseline and the signature. *)
Definition export_table
    (symbols : list (string * list (string * variant_data)))
  : list (string * string * string) :=
  flat_map (fun g => map (fun o => (fst g, d_symbol (snd o), fst o)) (snd g))
           symbols.

(** The exported names of a manifest, each with its signatures. *)
Definition signatures
    (symbols : list (string * list (string * variant_data)))
  : list (string * list string) :=
  map (fun g => (fst g, map fst (snd g))) symbols.

(** The entries of the root dictionary that a load does not assign, and the
    names and signatures it exports. *)
Definition same_header (d d' : pixie_dict) : Prop :=
  pd_uuid d' = pd_uuid d
  /\ pd_is_specialized d' = pd_is_specialized d
  /\ pd_c_header d' = pd_c_header d
  /\ pd_linkage d' = pd_linkage d
  /\ signatures (pd_symbols d') = signatures (pd_symbols d).

(** A key of the assemblers under which [lcls[fn]] is found after the
    [exec] of its text. *)
Definition assembler_key_ok (entry : string * overlay_fn) : bool :=
  String.eqb (fst entry) (fn_name (snd entry))
  || String.eqb (fst entry) "ctypes"
  || String.eqb (fst entry) "__builtins__".

(** A path component: a string without a slash. *)
Definition has_no_slash (s : string) : bool :=
  forallb (fun a => negb (Ascii.eqb a "/")) (list_ascii_of_string s).

(** The names of the two accessors [get_bitcode] calls. *)
Definition bitcode_size_symbol (obj : module_obj) : string :=
  "get_bitcode_for_" +:+ m_name obj +:+ "_size".

Definition bitcode_data_symbol (obj : module_obj) : string :=
  "get_bitcode_for_" +:+ m_name obj.

(** ** Further scenarios around the library [lib] *)
Module MoreScenarios.

(** The import of the specialized module fails, but not with an
    [ImportError]. *)
Definition broken_import : collaborators :=
  {| import_module := fun name => Raises (Exn "SyntaxError" name);
     CDLL := CDLL Scenario.generic_only;
     eval_cfunctype := eval_cfunctype Scenario.generic_only;
     get_host_cpu_name := "skylake";
     backend := backend Scenario.generic_only;
     fresh_uuid := "F0" |}.

(** An exception class of the user's that derives from [ImportError], as
    in [class StaleSpecialization(ImportError)]. *)
Definition StaleSpecialization (arg : string) : exn :=
  MkExn "StaleSpecialization"
        ["ImportError"; "Exception"; "BaseException"; "object"] arg.

(** The import of the specialized module fails with that exception. *)
Definition stale_import : collaborators :=
  {| import_module := fun name => Raises (StaleSpecialization name);
     CDLL := CDLL Scenario.generic_only;
     eval_cfunctype := eval_cfunctype Scenario.generic_only;
     get_host_cpu_name := "skylake";
     backend := backend Scenario.generic_only;
     fresh_uuid := "F0" |}.

(** The specialized name resolves to a module without [__PIXIE__]. *)
Definition plain_module : module_obj :=
  {| m_name := "lib_pixie_specialized";
     m_file := "/opt/pixie/lib_pixie_specialized.py";
     m_PIXIE := None |}.

Definition beside_plain_module : world :=
  {| heap := {[ 10 := Scenario.lib_dict "A1" ]};
     mods := {[ 1 := Scenario.lib_module; 2 := plain_module ]};
     stdout := [];
     warnings := [];
     imported := [];
     compilations := [];
     disk := [] |}.

(** The specialized module has gone through its own generic load: its
    dictionary holds the closure over it. *)
Definition specialized_dict : pixie_dict :=
  set_specialize (Some (specialize 2)) (Scenario.lib_dict "A1").

Definition beside_loaded_specialized : world :=
  {| heap := {[ 10 := Scenario.lib_dict "A1"; 20 := specialized_dict ]};
     mods := {[ 1 := Scenario.lib_module; 2 := Scenario.specialized_module ]};
     stdout := [];
     warnings := [];
     imported := [];
     compilations := [];
     disk := [] |}.


(** The image of [lib] with a size accessor that answers the given word;
    nothing is read from it. *)
Definition image_with_size (size : Z) : dso :=
  {| dso_dlsym := dso_dlsym Scenario.image;
     dso_call := fun a =>
       if (a =? 12288)%Z then size else dso_call Scenario.image a;
     dso_read := fun a n => [];
     dso_alloc := dso_alloc Scenario.image |}.


(** A payload that keeps the text of [address_of_symbol] under another
    key. *)
Definition misnamed_payload : payload :=
  Payload 10 [("main", Fmain); ("lookup", Faddress_of_symbol)].


(** [lib] after a generic load that was not preceded by an import. *)
Definition bound : world :=
  snd (generic_load Scenario.generic_only Scenario.lib_payload 1
                    (Scenario.unloaded "A1")).

(** The dictionary of [lib] once bound. *)
Definition bound_lib_dict : pixie_dict :=
  bound_dict (Scenario.lib_dict "A1")
    [("add", [("i64(i64,i64)",
               resolved Scenario.image
                 (CFUNCTYPE "ctypes.CFUNCTYPE(ctypes.c_long)")
                 Scenario.add_data)])]
    ["B"%byte; "B"%byte] 1.

End MoreScenarios.

(** * Properties *)

Section Properties.

Variable E : collaborators.

(** ** The effect monad *)

Lemma bind_returns {A B} (m : M A) (k : A -> M B) w b w' :
  bind m k w = (Returns b, w') ->
  exists a w1, m w = (Returns a, w1) /\ k a w1 = (Returns b, w').
Proof.
  unfold bind. destruct (m w) as [[a|e] w1]; intros H.
  - exists a, w1. split; [reflexivity | exact H].
  - discriminate H.
Qed.

Lemma bind_step {A B} (m : M A) (k : A -> M B) w a w1 :
  m w = (Returns a, w1) -> bind m k w = k a w1.
Proof. unfold bind. intros ->. reflexivity. Qed.

Lemma bind_raises {A B} (m : M A) (k : A -> M B) w e w1 :
  m w = (Raises e, w1) -> bind m k w = (Raises e, w1).
Proof. unfold bind. intros ->. reflexivity. Qed.

(** ** [specialize] *)

(** On a loaded module, [impl] prints its two lines and then runs the
    compiler on [specialize_request]. *)
Lemma impl_loaded obj cpu features w m l d :
  mods w !! obj = Some m -> m_PIXIE m = Some l -> heap w !! l = Some d ->
  impl E obj cpu features w =
  (compile E (specialize_request m d (target_cpu_of E cpu)
                                 (target_features_of features)) ;;
   ret VNone)
    (log_stdout (impl_uuid_line m d)
                (log_stdout (impl_banner E cpu features) w)).
Proof.
  intros Hm Hl Hd.
  unfold impl, print, get_module_PIXIE, get_module, get_dict, bind, ret.
  repeat (cbn [mods heap log_stdout];
          first [rewrite Hm | rewrite Hl | rewrite Hd]).
  reflexivity.
Qed.

(** The outcome of [compile], case by case on the backend. *)
Lemma compile_failure lib w :
  backend E (translation_units lib) (baseline_cpu lib)
            (baseline_features lib) (ec_symbols (export_configuration lib))
  = None ->
  compile E lib w = (Raises RecompilationFailure, log_compilation lib w).
Proof. unfold compile. intros ->. reflexivity. Qed.

Lemma compile_success lib w code :
  backend E (translation_units lib) (baseline_cpu lib)
            (baseline_features lib) (ec_symbols (export_configuration lib))
  = Some code ->
  exists mf,
    compile E lib w =
    (Returns tt,
     publish (output_dir lib) (library_name lib) (Artifact mf code)
             (log_compilation lib w))
    /\ identity mf = match uuid lib with Some u => u | None => fresh_uuid E end
    /\ is_specialized mf = true
    /\ exports mf = ec_symbols (export_configuration lib)
    /\ ir_payload mf = translation_units lib.
Proof.
  unfold compile. intros ->. eexists. split; [reflexivity |].
  repeat split.
Qed.

(** [compile] touches neither the dictionaries nor the modules. *)
Lemma compile_frame lib w :
  heap (snd (compile E lib w)) = heap w
  /\ mods (snd (compile E lib w)) = mods w
  /\ warnings (snd (compile E lib w)) = warnings w
  /\ compilations (snd (compile E lib w)) = compilations w ++ [lib].
Proof.
  unfold compile.
  destruct (backend E _ _ _ _); cbn; repeat split.
Qed.

(** [impl] touches neither the dictionaries nor the modules, whatever its
    outcome. *)
Lemma impl_frame obj cpu features w :
  heap (snd (impl E obj cpu features w)) = heap w
  /\ mods (snd (impl E obj cpu features w)) = mods w
  /\ warnings (snd (impl E obj cpu features w)) = warnings w.
Proof.
  destruct (mods w !! obj) as [m|] eqn:Hm.
  - destruct (m_PIXIE m) as [l|] eqn:Hl.
    + destruct (heap w !! l) as [d|] eqn:Hd.
      * rewrite (impl_loaded obj cpu features w m l d Hm Hl Hd).
        unfold bind.
        match goal with |- context [compile E ?lib ?w1] =>
          destruct (compile_frame lib w1) as (Hh & Hmo & Hw & _);
          destruct (compile E lib w1) as [[[]|e] w2]
        end; cbn in *; rewrite Hh, Hmo, Hw; repeat split.
      * unfold impl, print, get_module_PIXIE, get_module, get_dict, bind, ret.
        cbn. rewrite Hm, Hl. cbn. rewrite Hd. repeat split.
    + unfold impl, print, get_module_PIXIE, get_module, bind, raise.
      cbn. rewrite Hm, Hl. repeat split.
  - unfold impl, print, get_module_PIXIE, get_module, bind.
    cbn. rewrite Hm. repeat split.
Qed.

(** When the backend succeeds, [impl] returns [None] after the compiler
    has published the new artifact. *)
Lemma impl_success obj cpu features w m l d code :
  mods w !! obj = Some m -> m_PIXIE m = Some l -> heap w !! l = Some d ->
  backend_answer E m d cpu features = Some code ->
  exists lib mf w',
    impl E obj cpu features w = (Returns VNone, w')
    /\ lib = specialize_request m d (target_cpu_of E cpu)
                                (target_features_of features)
    /\ compilations w' = compilations w ++ [lib]
    /\ disk w' = disk w ++ [(output_dir lib, library_name lib,
                             Artifact mf code)]
    /\ identity mf = match uuid lib with
                     | Some u => u
                     | None => fresh_uuid E
                     end
    /\ heap w' = heap w /\ mods w' = mods w.
Proof.
  intros Hm Hl Hd Hb.
  rewrite (impl_loaded obj cpu features w m l d Hm Hl Hd).
  set (lib := specialize_request m d _ _).
  set (w1 := log_stdout _ _).
  destruct (compile_success lib w1 code Hb) as (mf & Hc & Hid & _).
  exists lib, mf. eexists. split.
  - rewrite (bind_step _ _ _ _ _ Hc). reflexivity.
  - repeat split; try reflexivity. exact Hid.
Qed.

(** When the backend fails, [impl] raises what [compile] raised: it has no
    handler around the call. *)
Lemma impl_failure obj cpu features w m l d :
  mods w !! obj = Some m -> m_PIXIE m = Some l -> heap w !! l = Some d ->
  backend_answer E m d cpu features = None ->
  exists w',
    impl E obj cpu features w = (Raises RecompilationFailure, w')
    /\ heap w' = heap w /\ mods w' = mods w /\ disk w' = disk w
    /\ warnings w' = warnings w.
Proof.
  intros Hm Hl Hd Hb.
  rewrite (impl_loaded obj cpu features w m l d Hm Hl Hd).
  set (lib := specialize_request m d _ _).
  set (w1 := log_stdout _ _).
  eexists. split.
  - rewrite (bind_raises _ _ _ _ _ (compile_failure lib w1 Hb)). reflexivity.
  - repeat split.
Qed.

(** Every run of [impl]: the store is as before; a run that returns has
    returned [None] and added one library to the disk; a run that raises
    has written nothing. *)
Lemma impl_outcome obj cpu features w :
  heap (snd (impl E obj cpu features w)) = heap w
  /\ mods (snd (impl E obj cpu features w)) = mods w
  /\ match fst (impl E obj cpu features w) with
     | Returns v =>
         v = VNone
         /\ exists m art,
             mods w !! obj = Some m
             /\ disk (snd (impl E obj cpu features w))
                = disk w ++ [(os_path_split_head (m_file m),
                              specialized_lib_name m, art)]
     | Raises e => disk (snd (impl E obj cpu features w)) = disk w
     end.
Proof.
  destruct (impl_frame obj cpu features w) as (Hh & Hmo & _).
  split; [exact Hh |]. split; [exact Hmo |].
  destruct (mods w !! obj) as [m|] eqn:Hm.
  - destruct (m_PIXIE m) as [l|] eqn:Hl.
    + destruct (heap w !! l) as [d|] eqn:Hd.
      * destruct (backend_answer E m d cpu features) as [code|] eqn:Hb.
        -- destruct (impl_success obj cpu features w m l d code Hm Hl Hd Hb)
             as (lib & mf & w' & Hi & Hlib & _ & Hdisk & _).
           rewrite Hi. cbn [fst snd]. split; [reflexivity |].
           exists m, (Artifact mf code). split; [reflexivity |].
           rewrite Hdisk, Hlib. reflexivity.
        -- destruct (impl_failure obj cpu features w m l d Hm Hl Hd Hb)
             as (w' & Hi & _ & _ & Hdisk & _).
           rewrite Hi. exact Hdisk.
      * unfold impl, print, get_module_PIXIE, get_module, get_dict, bind, ret.
        cbn. rewrite Hm, Hl. cbn. rewrite Hd. reflexivity.
    + unfold impl, print, get_module_PIXIE, get_module, bind, raise.
      cbn. rewrite Hm, Hl. reflexivity.
  - unfold impl, print, get_module_PIXIE, get_module, bind.
    cbn. rewrite Hm. reflexivity.
Qed.

(** C7. Target resolution in [specialize]: with the target ["host"] the
    compiler is given the CPU name obtained from the executing host
    ([get_host_cpu_name()]); any other target is passed on as it is; when no
    features are given the target feature set is empty, and given features
    are passed on.  ["host"] and no features are the defaults of the
    call. *)
Theorem specialize_target_resolution obj cpu features w m l d :
  mods w !! obj = Some m -> m_PIXIE m = Some l -> heap w !! l = Some d ->
  exists lib,
    compilations (snd (impl E obj cpu features w)) = compilations w ++ [lib]
    /\ (cpu = "host" -> baseline_cpu lib = get_host_cpu_name E)
    /\ (cpu <> "host" -> baseline_cpu lib = cpu)
    /\ (features = None -> baseline_features lib = [])
    /\ (forall fs, features = Some fs -> baseline_features lib = fs)
    /\ call_impl E (specialize obj) None features w
       = impl E obj "host" features w.
Proof.
  intros Hm Hl Hd.
  exists (specialize_request m d (target_cpu_of E cpu)
                             (target_features_of features)).
  split.
  - rewrite (impl_loaded obj cpu features w m l d Hm Hl Hd).
    unfold bind.
    match goal with |- context [compile E ?lib ?w1] =>
      destruct (compile_frame lib w1) as (_ & _ & _ & Hc);
      destruct (compile E lib w1) as [[[]|e] w2]
    end; cbn [snd] in *; exact Hc.
  - cbn [baseline_cpu baseline_features specialize_request].
    unfold target_cpu_of, target_features_of.
    repeat split.
    + intros ->. reflexivity.
    + intros Hne. destruct (String.eqb_spec cpu "host"); [contradiction | reflexivity].
    + intros ->. reflexivity.
    + intros fs ->. reflexivity.
Qed.


(** C4, as the code has it. [specialize] leaves its input artifact
    unchanged: after every call, whatever its outcome, all dictionaries
    (manifest, symbols, identity, bindings) and all module objects are as
    before.  The call itself returns [None]: the new artifact is not its
    result but a library written to the directory of the module's file,
    under the module's name followed by [_pixie_specialized]; a call that
    raises writes nothing. *)
Theorem specialize_leaves_input_unchanged obj cpu features w :
  heap (snd (impl E obj cpu features w)) = heap w
  /\ mods (snd (impl E obj cpu features w)) = mods w
  /\ (forall v, fst (impl E obj cpu features w) = Returns v ->
        v = VNone
        /\ exists m art,
            mods w !! obj = Some m
            /\ disk (snd (impl E obj cpu features w))
               = disk w ++ [(os_path_split_head (m_file m),
                             m_name m +:+ "_pixie_specialized", art)])
  /\ (forall e, fst (impl E obj cpu features w) = Raises e ->
        disk (snd (impl E obj cpu features w)) = disk w).
Proof.
  destruct (impl_outcome obj cpu features w) as (Hh & Hm & Ho).
  split; [exact Hh |]. split; [exact Hm |].
  destruct (fst (impl E obj cpu features w)) as [v|e].
  - split; [| intros e He; discriminate He].
    intros v' Hv. injection Hv as <-. exact Ho.
  - split; [intros v Hv; discriminate Hv |].
    intros _ _. exact Ho.
Qed.

(** C9. A failure of the code-generation backend during [specialize]
    reaches the caller as [RecompilationFailure], and the loaded original
    is untouched: its dictionaries and module objects are as before, and
    nothing has been written to disk. *)
Theorem specialize_backend_failure obj cpu features w m l d :
  mods w !! obj = Some m -> m_PIXIE m = Some l -> heap w !! l = Some d ->
  backend_answer E m d cpu features = None ->
  exists w',
    impl E obj cpu features w = (Raises RecompilationFailure, w')
    /\ heap w' = heap w /\ mods w' = mods w /\ disk w' = disk w.
Proof.
  intros Hm Hl Hd Hb.
  destruct (impl_failure obj cpu features w m l d Hm Hl Hd Hb)
    as (w' & Hi & Hh & Hmo & Hdisk & _).
  exists w'. repeat split; assumption.
Qed.

(** ** Frame properties of the monadic steps *)

Lemma keeps_bind {X A B} (f : world -> X) (m : M A) (k : A -> M B) :
  keeps f m -> (forall a, keeps f (k a)) -> keeps f (bind m k).
Proof.
  intros Hm Hk w. unfold bind. specialize (Hm w).
  destruct (m w) as [[a|e] w1]; cbn [snd] in *.
  - rewrite (Hk a w1). exact Hm.
  - exact Hm.
Qed.

Lemma keeps_ret {X A} (f : world -> X) (a : A) : keeps f (ret a).
Proof. intros w. reflexivity. Qed.

Lemma keeps_raise {X A} (f : world -> X) (e : exn) : keeps f (@raise A e).
Proof. intros w. reflexivity. Qed.

Lemma keeps_lift {X A} (f : world -> X) (o : outcome A) : keeps f (lift o).
Proof. intros w. reflexivity. Qed.

Lemma keeps_get_module {X} (f : world -> X) obj : keeps f (get_module obj).
Proof. intros w. unfold get_module. destruct (mods w !! obj); reflexivity. Qed.

Lemma keeps_get_dict {X} (f : world -> X) l : keeps f (get_dict l).
Proof. intros w. unfold get_dict. destruct (heap w !! l); reflexivity. Qed.

Lemma keeps_get_module_PIXIE {X} (f : world -> X) obj :
  keeps f (get_module_PIXIE obj).
Proof.
  apply keeps_bind; [apply keeps_get_module |].
  intros m. destruct (m_PIXIE m); [apply keeps_ret | apply keeps_raise].
Qed.

Lemma keeps_update_dict {X} (f : world -> X) l g :
  (forall h w, f (set_heap h w) = f w) -> keeps f (update_dict l g).
Proof.
  intros Hf w. unfold update_dict.
  destruct (heap w !! l); cbn [snd]; [apply Hf | reflexivity].
Qed.

Lemma keeps_set_module_PIXIE {X} (f : world -> X) obj l :
  (forall ms w, f (set_mods ms w) = f w) -> keeps f (set_module_PIXIE obj l).
Proof.
  intros Hf w. unfold set_module_PIXIE.
  destruct (mods w !! obj); cbn [snd]; [apply Hf | reflexivity].
Qed.

(** [bind_payload] changes dictionaries only; [generic_load] dictionaries
    and the module's [__PIXIE__]. *)
Lemma keeps_bind_payload {X} (f : world -> X) p obj :
  (forall h w, f (set_heap h w) = f w) -> keeps f (bind_payload E p obj).
Proof.
  intros Hf. unfold bind_payload.
  repeat first
    [ apply keeps_bind; [| intros ?]
    | apply keeps_get_module | apply keeps_get_dict | apply keeps_lift
    | apply keeps_update_dict; exact Hf ].
Qed.

Lemma keeps_generic_load {X} (f : world -> X) p obj :
  (forall h w, f (set_heap h w) = f w) ->
  (forall ms w, f (set_mods ms w) = f w) ->
  keeps f (generic_load E p obj).
Proof.
  intros Hh Hm. unfold generic_load.
  apply keeps_bind; [apply keeps_bind_payload; exact Hh |].
  intros _. apply keeps_set_module_PIXIE; exact Hm.
Qed.

(** The module table after [generic_load]: untouched when the load raises,
    and with the payload's dictionary written in when it returns. *)
Lemma generic_load_mods p obj w :
  match fst (generic_load E p obj w) with
  | Returns _ =>
      exists m, mods w !! obj = Some m
        /\ mods (snd (generic_load E p obj w))
           = <[obj := ModuleObj (m_name m) (m_file m)
                                (Some (payload_PIXIE p))]> (mods w)
  | Raises _ => mods (snd (generic_load E p obj w)) = mods w
  end.
Proof.
  unfold generic_load, bind.
  pose proof (keeps_bind_payload mods p obj (fun _ _ => eq_refl) w) as Hk.
  destruct (bind_payload E p obj w) as [[[]|e] w1]; cbn [snd] in Hk.
  - unfold set_module_PIXIE. rewrite Hk.
    destruct (mods w !! obj) as [m|] eqn:Hm; cbn [fst snd].
    + exists m. split; reflexivity.
    + exact Hk.
  - exact Hk.
Qed.

(** ** [main]: the specialized module *)

Lemma uuid_eqb_eq a b : uuid_eqb a b = true <-> a = b.
Proof.
  destruct a as [x|], b as [y|]; cbn; split; intros H;
    try discriminate H; try reflexivity.
  - apply String.eqb_eq in H. subst. reflexivity.
  - injection H as ->. apply String.eqb_refl.
Qed.

(** Without an importable specialized module, [main] is the generic
    load. *)
Lemma main_without_specialized p obj w m e :
  mods w !! obj = Some m ->
  import_module E (sbs_name m) = Raises e -> is_ImportError e = true ->
  main E p obj w = generic_load E p obj (log_import (sbs_name m) w).
Proof.
  intros Hm Hi He.
  unfold main, get_module, try_import, bind, ret.
  rewrite Hm, Hi, He. reflexivity.
Qed.

Section SpecializedFound.

Variables (p : payload) (obj sm ls : loc) (w : world).
Variables (m smod : module_obj) (sd pd : pixie_dict).
Hypothesis Hm : mods w !! obj = Some m.
Hypothesis Hi : import_module E (sbs_name m) = Returns sm.
Hypothesis Hsm : mods w !! sm = Some smod.
Hypothesis Hls : m_PIXIE smod = Some ls.
Hypothesis Hsd : heap w !! ls = Some sd.
Hypothesis Hpd : heap w !! payload_PIXIE p = Some pd.

Lemma main_adopts :
  pd_uuid pd = pd_uuid sd ->
  main E p obj w = (Returns tt, adopted obj m smod ls sd w).
Proof.
  intros Hu. apply uuid_eqb_eq in Hu.
  unfold main, get_module, try_import, adopt_specialized,
    get_module_PIXIE, get_module, get_dict, set_module_PIXIE,
    update_dict, print, bind, ret.
  rewrite Hm, Hi.
  repeat (cbn [heap mods m_PIXIE set_heap set_mods log_import log_stdout];
          first [ rewrite Hpd | rewrite Hsm | rewrite Hls | rewrite Hsd
                | rewrite Hm | rewrite Hu | rewrite lookup_insert_eq ]).
  reflexivity.
Qed.

(** On a mismatch the branch issues its warning and falls through: it
    returns, and nothing but the list of warnings has changed. *)
Lemma adopt_specialized_reverts :
  pd_uuid pd <> pd_uuid sd ->
  adopt_specialized p obj sm (log_import (sbs_name m) w)
  = (Returns false,
     log_warning (mismatch_msg smod m) (log_import (sbs_name m) w)).
Proof.
  intros Hu.
  assert (Hb : uuid_eqb (pd_uuid pd) (pd_uuid sd) = false).
  { destruct (uuid_eqb _ _) eqn:Hb; [| reflexivity].
    apply uuid_eqb_eq in Hb. contradiction. }
  unfold adopt_specialized, get_module_PIXIE, get_module, get_dict,
    warnings_warn, bind, ret.
  repeat (cbn [heap mods m_PIXIE set_heap set_mods log_import log_stdout];
          first [ rewrite Hpd | rewrite Hsm | rewrite Hls | rewrite Hsd
                | rewrite Hm | rewrite Hb ]).
  reflexivity.
Qed.

Lemma main_reverts :
  pd_uuid pd <> pd_uuid sd ->
  main E p obj w =
  generic_load E p obj
    (log_warning (mismatch_msg smod m) (log_import (sbs_name m) w)).
Proof.
  intros Hu. unfold main.
  rewrite (bind_step (get_module obj) _ w m w)
    by (unfold get_module; rewrite Hm; reflexivity).
  rewrite (bind_step (try_import E (sbs_name m)) _ w (Some sm)
                     (log_import (sbs_name m) w))
    by (unfold try_import; rewrite Hi; reflexivity).
  rewrite (bind_step _ _ _ _ _ (adopt_specialized_reverts Hu)).
  reflexivity.
Qed.

End SpecializedFound.

(** C1, as the code has it. When the specialized module can be imported
    (and the module being initialised does not hold its dictionary already),
    [main] ends with the module serving the specialized module's dictionary,
    flagged ['is_specialized'], if and only if the two identities are equal;
    it then returns without a warning.  When they differ, [main] issues
    exactly one warning and goes on as the generic load does from there:
    the branch that found the mismatch returns without raising, the outcome
    of [main] is that of the generic load, exceptions included, a load that
    returns has installed the payload's own dictionary, and a load that
    raises leaves every module as it was. *)
Theorem load_manager_identity_check p obj sm ls w m smod sd pd :
  mods w !! obj = Some m ->
  import_module E (sbs_name m) = Returns sm ->
  mods w !! sm = Some smod -> m_PIXIE smod = Some ls ->
  heap w !! ls = Some sd -> heap w !! payload_PIXIE p = Some pd ->
  m_PIXIE m <> Some ls ->
  exists r w',
    main E p obj w = (r, w')
    /\ (SpecializedLoaded w' obj sm <-> pd_uuid pd = pd_uuid sd)
    /\ (pd_uuid pd = pd_uuid sd ->
          r = Returns tt
          /\ warnings w' = warnings w
          /\ mods w' !! obj
             = Some (ModuleObj (m_name m) (m_file m) (Some ls))
          /\ heap w' !! ls = Some (set_is_specialized true sd))
    /\ (pd_uuid pd <> pd_uuid sd ->
          adopt_specialized p obj sm (log_import (sbs_name m) w)
          = (Returns false,
             log_warning (mismatch_msg smod m) (log_import (sbs_name m) w))
          /\ (r, w') = generic_load E p obj
                         (log_warning (mismatch_msg smod m)
                                      (log_import (sbs_name m) w))
          /\ warnings w' = warnings w ++ [mismatch_msg smod m]
          /\ (r = Returns tt ->
                exists m', mods w' !! obj = Some m'
                  /\ m_PIXIE m' = Some (payload_PIXIE p))
          /\ (forall e, r = Raises e -> mods w' = mods w)).
Proof.
  intros Hm Hi Hsm Hls Hsd Hpd Hfresh.
  destruct (decide (pd_uuid pd = pd_uuid sd)) as [Hu|Hu].
  - (* the identities match *)
    exists (Returns tt), (adopted obj m smod ls sd w).
    split; [exact (main_adopts p obj sm ls w m smod sd pd
                     Hm Hi Hsm Hls Hsd Hpd Hu) |].
    assert (Hobj : mods (adopted obj m smod ls sd w) !! obj
                   = Some (ModuleObj (m_name m) (m_file m) (Some ls))).
    { cbn. apply lookup_insert_eq. }
    assert (Hheap : heap (adopted obj m smod ls sd w) !! ls
                    = Some (set_is_specialized true sd)).
    { cbn. apply lookup_insert_eq. }
    split; [| split].
    + split; [intros _; exact Hu |]. intros _.
      destruct (decide (sm = obj)) as [->|Hne].
      * eexists _, _, ls, _. repeat split; try eassumption; reflexivity.
      * exists (ModuleObj (m_name m) (m_file m) (Some ls)), smod, ls,
          (set_is_specialized true sd).
        repeat split; try assumption.
        cbn. rewrite lookup_insert_ne by congruence. exact Hsm.
    + intros _. repeat split; assumption.
    + intros Hne. contradiction.
  - (* the identities differ *)
    pose proof (main_reverts p obj sm ls w m smod sd pd
                  Hm Hi Hsm Hls Hsd Hpd Hu) as Hmain.
    set (w0 := log_warning (mismatch_msg smod m)
                 (log_import (sbs_name m) w)) in *.
    destruct (generic_load E p obj w0) as [r w'] eqn:Hg.
    exists r, w'. split; [exact Hmain |].
    assert (Hw : warnings w' = warnings w ++ [mismatch_msg smod m]).
    { pose proof (keeps_generic_load warnings p obj
                    (fun _ _ => eq_refl) (fun _ _ => eq_refl) w0) as Hk.
      rewrite Hg in Hk. exact Hk. }
    pose proof (generic_load_mods p obj w0) as Hmods.
    rewrite Hg in Hmods. cbn [fst snd] in Hmods.
    assert (Hm0 : mods w0 !! obj = Some m) by exact Hm.
    assert (Hsm0 : mods w0 !! sm = Some smod) by exact Hsm.
    split; [| split].
    + split; [| intros Heq; contradiction].
      intros (m1 & sm1 & l & d & Ho & Hs & Hl1 & Hl2 & _). exfalso.
      destruct r as [[]|e].
      * destruct Hmods as (m2 & Hm2 & Hmods). rewrite Hmods in Ho, Hs.
        rewrite lookup_insert_eq in Ho. injection Ho as <-.
        cbn in Hl1. injection Hl1 as <-.
        destruct (decide (sm = obj)) as [->|Hne].
        -- rewrite Hm0 in Hsm0. injection Hsm0 as ->.
           apply Hfresh. exact Hls.
        -- rewrite lookup_insert_ne in Hs by congruence.
           rewrite Hsm0 in Hs. injection Hs as <-.
           rewrite Hls in Hl2. injection Hl2 as ->.
           rewrite Hsd in Hpd. injection Hpd as ->.
           apply Hu. reflexivity.
      * rewrite Hmods in Ho, Hs. rewrite Hm0 in Ho. injection Ho as <-.
        rewrite Hsm0 in Hs. injection Hs as <-.
        apply Hfresh. rewrite Hl1, <- Hl2. exact Hls.
    + intros Heq. contradiction.
    + intros _.
      split; [exact (adopt_specialized_reverts p obj sm ls w m smod sd pd
                       Hm Hsm Hls Hsd Hpd Hu) |].
      split; [reflexivity |]. split; [exact Hw |]. split.
      * intros ->. destruct Hmods as (m2 & Hm2 & Hmods).
        eexists. rewrite Hmods, lookup_insert_eq. split; reflexivity.
      * intros e ->. exact Hmods.
Qed.

(** ** The name of the specialized library *)

Lemma keeps_print {X} (f : world -> X) line :
  (forall l w, f (log_stdout l w) = f w) -> keeps f (print line).
Proof. intros Hf w. apply Hf. Qed.

Lemma keeps_warnings_warn {X} (f : world -> X) msg :
  (forall l w, f (log_warning l w) = f w) -> keeps f (warnings_warn msg).
Proof. intros Hf w. apply Hf. Qed.

Lemma keeps_adopt_specialized {X} (f : world -> X) p obj sm :
  (forall h w, f (set_heap h w) = f w) ->
  (forall ms w, f (set_mods ms w) = f w) ->
  (forall l w, f (log_stdout l w) = f w) ->
  (forall l w, f (log_warning l w) = f w) ->
  keeps f (adopt_specialized p obj sm).
Proof.
  intros Hh Hm Hs Hw. unfold adopt_specialized.
  do 5 (apply keeps_bind;
        [ first [ apply keeps_get_module_PIXIE | apply keeps_get_module
                | apply keeps_get_dict ]
        | intros ? ]).
  destruct (uuid_eqb _ _);
    repeat first
      [ apply keeps_get_module_PIXIE | apply keeps_ret
      | apply keeps_set_module_PIXIE; exact Hm
      | apply keeps_update_dict; exact Hh
      | apply keeps_print; exact Hs
      | apply keeps_warnings_warn; exact Hw
      | apply keeps_bind; [| intros ?] ].
Qed.

(** [main] hands exactly one name to the import system: [sbs_name]. *)
Lemma main_imported p obj w m :
  mods w !! obj = Some m ->
  imported (snd (main E p obj w)) = imported w ++ [sbs_name m].
Proof.
  intros Hm. unfold main.
  rewrite (bind_step (get_module obj) _ w m w)
    by (unfold get_module; rewrite Hm; reflexivity).
  assert (Hrest : forall o : option loc,
    keeps imported
      (let* finished :=
         match o with
         | Some sm => adopt_specialized p obj sm
         | None => ret false
         end in
       if finished then ret tt else generic_load E p obj)).
  { intros o. apply keeps_bind.
    - destruct o; [| apply keeps_ret].
      apply keeps_adopt_specialized; intros; reflexivity.
    - intros [|]; [apply keeps_ret |].
      apply keeps_generic_load; intros; reflexivity. }
  unfold bind at 1. unfold try_import.
  destruct (import_module E (sbs_name m)) as [sm|e].
  - rewrite (Hrest (Some sm)). reflexivity.
  - destruct (is_ImportError e); [| reflexivity].
    rewrite (Hrest None). reflexivity.
Qed.

Lemma list_ascii_of_string_append a b :
  list_ascii_of_string (a +:+ b)
  = list_ascii_of_string a ++ list_ascii_of_string b.
Proof.
  induction a as [|c a IH]; [reflexivity |].
  change (c :: list_ascii_of_string (a +:+ b)
          = c :: (list_ascii_of_string a ++ list_ascii_of_string b)).
  rewrite IH. reflexivity.
Qed.

Lemma append_inv_tail a b suffix :
  a +:+ suffix = b +:+ suffix -> a = b.
Proof.
  intros H. apply (f_equal list_ascii_of_string) in H.
  rewrite !list_ascii_of_string_append in H.
  apply app_inv_tail in H.
  rewrite <- (string_of_list_ascii_of_string a),
          <- (string_of_list_ascii_of_string b), H.
  reflexivity.
Qed.

(** C8. The place where [specialize] publishes is a function of the
    original module alone: the library is named after the module's name,
    followed by [_pixie_specialized], in the directory of the module's
    file, and modules of different names get different library names.
    That library name is exactly the name [main] hands to the import
    system when a module of that name is loaded. *)
Theorem specialized_name_round_trip p obj obj' cpu features w w' m m' l d :
  mods w !! obj = Some m -> m_PIXIE m = Some l -> heap w !! l = Some d ->
  mods w' !! obj' = Some m' -> m_name m' = m_name m ->
  exists lib,
    compilations (snd (impl E obj cpu features w)) = compilations w ++ [lib]
    /\ library_name lib = m_name m +:+ "_pixie_specialized"
    /\ output_dir lib = os_path_split_head (m_file m)
    /\ (forall v, fst (impl E obj cpu features w) = Returns v ->
          exists art,
            disk (snd (impl E obj cpu features w))
            = disk w ++ [(output_dir lib, library_name lib, art)])
    /\ imported (snd (main E p obj' w')) = imported w' ++ [library_name lib]
    /\ (forall m2, specialized_lib_name m2 = library_name lib ->
          m_name m2 = m_name m).
Proof.
  intros Hm Hl Hd Hm' Hname.
  exists (specialize_request m d (target_cpu_of E cpu)
                             (target_features_of features)).
  split; [| split; [reflexivity | split; [reflexivity | split; [| split]]]].
  - rewrite (impl_loaded obj cpu features w m l d Hm Hl Hd).
    unfold bind.
    match goal with |- context [compile E ?lib ?w1] =>
      destruct (compile_frame lib w1) as (_ & _ & _ & Hc);
      destruct (compile E lib w1) as [[[]|e] w2]
    end; cbn [snd] in *; exact Hc.
  - intros v Hv.
    destruct (impl_outcome obj cpu features w) as (_ & _ & Ho).
    rewrite Hv in Ho. destruct Ho as (_ & m1 & art & Hm1 & Hdisk).
    rewrite Hm in Hm1. injection Hm1 as <-.
    exists art. exact Hdisk.
  - rewrite (main_imported p obj' w' m' Hm').
    unfold sbs_name. rewrite Hname. reflexivity.
  - intros m2 Heq. cbn [library_name specialize_request] in Heq.
    unfold specialized_lib_name in Heq.
    exact (append_inv_tail _ _ _ Heq).
Qed.

(** ** The binding loop *)

Lemma CDLL_getattr_returns D s fp :
  CDLL_getattr D s = Returns fp ->
  fp = FuncPtr s (dso_dlsym D s) /\ dso_dlsym D s <> 0%Z.
Proof.
  unfold CDLL_getattr. destruct (Z.eqb_spec (dso_dlsym D s) 0) as [Hz|Hz].
  - discriminate.
  - intros H. injection H as <-. split; [reflexivity | exact Hz].
Qed.


Lemma call_address_of_symbol_returns fns D s fp :
  call_address_of_symbol fns D s = Returns fp ->
  fp = FuncPtr s (dso_dlsym D s) /\ dso_dlsym D s <> 0%Z.
Proof.
  unfold call_address_of_symbol, address_of_symbol.
  destruct (fns !! "address_of_symbol") as [[[]| |]|]; try discriminate.
  apply CDLL_getattr_returns.
Qed.

Lemma bind_variants_returns fns D proto variants tmp :
  bind_variants fns D proto variants = Returns tmp ->
  tmp = map (bound_variant D proto) variants
  /\ Forall (fun s => dso_dlsym D s <> 0%Z) (map snd variants).
Proof.
  revert tmp. induction variants as [|[variant symbol] rest IH]; intros tmp H.
  - injection H as <-. split; [reflexivity | constructor].
  - cbn [bind_variants] in H.
    destruct (call_address_of_symbol fns D symbol) as [fp|e] eqn:Ha;
      [| discriminate H].
    apply call_address_of_symbol_returns in Ha as [-> Hnz].
    cbn [obind] in H.
    destruct (bind_variants fns D proto rest) as [tmp'|e] eqn:Hr;
      [| discriminate H].
    destruct (IH tmp' eq_refl) as [-> Hall].
    injection H as <-. split; [reflexivity |].
    constructor; assumption.
Qed.

Lemma bind_feature_variants_returns fns D proto v tmp :
  bind_feature_variants fns D proto v = Returns tmp ->
  tmp = map (bound_variant D proto) (raw_items v)
  /\ Forall (fun s => dso_dlsym D s <> 0%Z) (map snd (raw_items v)).
Proof.
  destruct v as [items|[|item items]]; cbn [bind_feature_variants raw_items].
  - apply bind_variants_returns.
  - intros H. injection H as <-. split; [reflexivity | constructor].
  - destruct (fns !! "address_of_symbol"); discriminate.
Qed.

(** One signature bound without error: the prototype text evaluated, every
    symbol the [variant_data] names is in the image, and the dictionary
    is [resolved]. *)
Lemma bind_data_returns fns D data data' :
  bind_data E fns D data = (Returns tt, data') ->
  exists proto,
    eval_field E (d_ctypes_cfunctype data) = Returns proto
    /\ data' = resolved D proto data
    /\ Forall (fun s => dso_dlsym D s <> 0%Z) (data_symbols data).
Proof.
  unfold bind_data.
  destruct (eval_field E (d_ctypes_cfunctype data)) as [proto|e];
    [| discriminate].
  cbn [d_symbol set_ctypes_cfunctype].
  destruct (call_address_of_symbol fns D (d_symbol data)) as [fp|e] eqn:Ha;
    [| discriminate].
  apply call_address_of_symbol_returns in Ha as [-> Hnz].
  cbn [d_feature_variants set_cfunc set_address set_ctypes_cfunctype].
  destruct (bind_feature_variants fns D proto (d_feature_variants data))
    as [tmp|e] eqn:Hv; [| discriminate].
  apply bind_feature_variants_returns in Hv as [-> Hall].
  intros H. injection H as <-. exists proto.
  split; [reflexivity |]. split.
  - unfold resolved, set_feature_variants, set_cfunc, set_address,
      set_ctypes_cfunctype, c_void_p_value. cbn.
    destruct (Z.eqb_spec (dso_dlsym D (d_symbol data)) 0); [contradiction |].
    reflexivity.
  - constructor; assumption.
Qed.

Lemma for_items_returns {V} (body : V -> outcome unit * V) items items' :
  for_items body items = (Returns tt, items') ->
  Forall2 (fun kv kv' =>
             fst kv = fst kv' /\ body (snd kv) = (Returns tt, snd kv'))
          items items'.
Proof.
  revert items'. induction items as [|[k v] rest IH]; intros items' H.
  - injection H as <-. constructor.
  - cbn [for_items] in H.
    destruct (body v) as [[[]|e] v'] eqn:Hb; [| discriminate H].
    destruct (for_items body rest) as [r rest'] eqn:Hr.
    injection H as -> <-.
    constructor; [split; [reflexivity | exact Hb] |].
    apply IH. reflexivity.
Qed.

Lemma bind_overloads_returns fns D overloads overloads' :
  for_items (bind_data E fns D) overloads = (Returns tt, overloads') ->
  overloads_resolved E D overloads overloads'
  /\ Forall (fun s => dso_dlsym D s <> 0%Z)
            (flat_map (fun o => data_symbols (snd o)) overloads).
Proof.
  intros H. apply for_items_returns in H.
  induction H as [|o o' l l' [Hk Hb] _ [IH1 IH2]].
  - split; constructor.
  - apply bind_data_returns in Hb as (proto & He & Hd & Hnz).
    split.
    + constructor; [| exact IH1]. split; [exact Hk |]. exists proto.
      repeat split; assumption.
    + cbn [flat_map]. apply Forall_app. split; assumption.
Qed.

Lemma bind_symbols_returns fns D symbols symbols' :
  bind_symbols E fns D symbols = (Returns tt, symbols') ->
  symbols_resolved E D symbols symbols'
  /\ Forall (fun s => dso_dlsym D s <> 0%Z) (manifest_symbols symbols).
Proof.
  unfold bind_symbols. intros H. apply for_items_returns in H.
  induction H as [|g g' l l' [Hk Hb] _ [IH1 IH2]].
  - split; constructor.
  - apply bind_overloads_returns in Hb as [Ho Hnz].
    split.
    + constructor; [| exact IH1]. split; assumption.
    + unfold manifest_symbols. cbn [flat_map]. apply Forall_app.
      split; assumption.
Qed.



(** Inversion of the store primitives. *)
Lemma get_module_returns obj w m w1 :
  get_module obj w = (Returns m, w1) -> mods w !! obj = Some m /\ w1 = w.
Proof.
  unfold get_module. destruct (mods w !! obj); intros H; [| discriminate H].
  injection H as -> ->. split; reflexivity.
Qed.

Lemma get_dict_returns l w d w1 :
  get_dict l w = (Returns d, w1) -> heap w !! l = Some d /\ w1 = w.
Proof.
  unfold get_dict. destruct (heap w !! l); intros H; [| discriminate H].
  injection H as -> ->. split; reflexivity.
Qed.

Lemma lift_returns {A} (o : outcome A) w a w1 :
  lift o w = (Returns a, w1) -> o = Returns a /\ w1 = w.
Proof. unfold lift. intros H. injection H as -> ->. split; reflexivity. Qed.

Lemma update_dict_returns l f w w1 :
  update_dict l f w = (Returns tt, w1) ->
  exists d, heap w !! l = Some d
    /\ w1 = set_heap (<[l := f d]> (heap w)) w.
Proof.
  unfold update_dict. destruct (heap w !! l) as [d|]; intros H;
    [| discriminate H].
  injection H as <-. exists d. split; reflexivity.
Qed.

Lemma bind_payload_returns p obj w w' :
  bind_payload E p obj w = (Returns tt, w') ->
  exists m D fns d symbols' bc,
    mods w !! obj = Some m
    /\ CDLL E (m_file m) = Returns D
    /\ exec_assemblers (payload_assemblers p) ∅ = Returns fns
    /\ heap w !! payload_PIXIE p = Some d
    /\ bind_symbols E fns D (pd_symbols d) = (Returns tt, symbols')
    /\ call_get_bitcode fns D m = Returns bc
    /\ heap w' !! payload_PIXIE p = Some (bound_dict d symbols' bc obj)
    /\ mods w' = mods w.
Proof.
  intros H.
  pose proof (keeps_bind_payload mods p obj (fun _ _ => eq_refl) w) as Hmods.
  rewrite H in Hmods. cbn [snd] in Hmods.
  unfold bind_payload in H.
  apply bind_returns in H as (m & w1 & Hgm & H).
  apply get_module_returns in Hgm as [Hm ->].
  apply bind_returns in H as (D & w1 & HD & H).
  apply lift_returns in HD as [HD ->].
  apply bind_returns in H as (fns & w1 & Hf & H).
  apply lift_returns in Hf as [Hf ->].
  apply bind_returns in H as (d & w1 & Hgd & H).
  apply get_dict_returns in Hgd as [Hd ->].
  apply bind_returns in H as ([] & w1 & Hu1 & H).
  apply update_dict_returns in Hu1 as (d1 & Hd1 & ->).
  rewrite Hd in Hd1. injection Hd1 as <-.
  apply bind_returns in H as ([] & w2 & Hl & H).
  apply lift_returns in Hl as [Hb ->].
  apply bind_returns in H as (bc & w2 & Hbc & H).
  apply lift_returns in Hbc as [Hbc ->].
  apply bind_returns in H as ([] & w2 & Hu2 & H).
  apply update_dict_returns in Hu2 as (d2 & Hd2 & ->).
  cbn [heap set_heap] in Hd2. rewrite lookup_insert_eq in Hd2.
  injection Hd2 as <-.
  apply bind_returns in H as (sp & w3 & Hsp & H).
  apply lift_returns in Hsp as [Hsp ->].
  apply update_dict_returns in H as (d3 & Hd3 & ->).
  cbn [heap set_heap] in Hd3. rewrite lookup_insert_eq in Hd3.
  injection Hd3 as <-.
  assert (sp = specialize obj) as ->.
  { unfold call_specialize in Hsp.
    destruct (fns !! "specialize") as [[[]| |]|]; try discriminate Hsp.
    injection Hsp as <-. reflexivity. }
  exists m, D, fns, d, (snd (bind_symbols E fns D (pd_symbols d))), bc.
  repeat split; try assumption.
  - destruct (bind_symbols E fns D (pd_symbols d)) as [r symbols'].
    cbn [fst snd] in *. rewrite Hb. reflexivity.
  - cbn [heap set_heap]. rewrite lookup_insert_eq. reflexivity.
Qed.

(** ** The dictionary after the generic load *)


Lemma bound_symbols_resolved D proto data :
  bound_symbols (resolved D proto data) = data_symbols data.
Proof.
  unfold bound_symbols, resolved, data_symbols.
  cbn [d_cfunc d_feature_variants cf_target fp_name app].
  f_equal. rewrite map_map. reflexivity.
Qed.


(** C2, as the code has it. The loader consults no host Feature Set and
    selects nothing: for every Variant Group (every signature of every
    exported name) a load that returns has bound the baseline symbol as the
    group's own ['address'] and ['cfunc'] and, next to it, every feature
    variant under ['feature_variants'], in insertion order.  The symbols
    bound for a group are its baseline symbol followed by the symbols of
    all its feature variants. *)
Theorem main_binds_every_variant p obj w w' d :
  generic_load E p obj w = (Returns tt, w') ->
  heap w !! payload_PIXIE p = Some d ->
  exists m D d',
    mods w !! obj = Some m /\ CDLL E (m_file m) = Returns D
    /\ heap w' !! payload_PIXIE p = Some d'
    /\ Forall2
         (fun g g' =>
            fst g = fst g'
            /\ Forall2
                 (fun o o' =>
                    fst o = fst o'
                    /\ (exists proto, snd o' = resolved D proto (snd o))
                    /\ bound_symbols (snd o') = data_symbols (snd o))
                 (snd g) (snd g'))
         (pd_symbols d) (pd_symbols d').
Proof.
  intros H Hd. unfold generic_load in H.
  apply bind_returns in H as ([] & w1 & Hb & Hs).
  destruct (bind_payload_returns p obj w w1 Hb)
    as (m & D & fns & d0 & symbols' & bc & Hm & HD & Hf & Hd0 & Hsy & Hbc
        & Hd' & Hmods).
  rewrite Hd in Hd0. injection Hd0 as <-.
  unfold set_module_PIXIE in Hs. rewrite Hmods, Hm in Hs.
  injection Hs as <-.
  exists m, D, (bound_dict d symbols' bc obj).
  split; [exact Hm |]. split; [exact HD |]. split; [exact Hd' |].
  apply bind_symbols_returns in Hsy as [Hres _].
  cbn [pd_symbols bound_dict set_specialize set_bitcode set_symbols].
  eapply Forall2_impl; [exact Hres |].
  intros g g' [Hn Ho]. split; [exact Hn |].
  eapply Forall2_impl; [exact Ho |].
  intros o o' [Hsig (proto & _ & Hr & _)]. split; [exact Hsig |].
  split; [exists proto; exact Hr |].
  rewrite Hr. apply bound_symbols_resolved.
Qed.

(** ** A symbol the image lacks *)

Lemma exec_PIXIE_assemblers :
  exists fns,
    exec_assemblers PIXIE_assemblers ∅ = Returns fns
    /\ fns !! "address_of_symbol" = Some (OverlayFn Faddress_of_symbol)
    /\ fns !! "get_bitcode" = Some (OverlayFn Fget_bitcode)
    /\ fns !! "specialize" = Some (OverlayFn Fspecialize).
Proof. eexists. split; [reflexivity |]. repeat split. Qed.









(** ** [add_variant] *)

(** C5, as the code has it. [add_variant] looks at no manifest and checks
    for no duplicate: every call returns the dictionary built from its
    arguments, unbound (['address'] and ['cfunc'] are [None]), so a second
    call with the same arguments returns a dictionary equal to the first
    and raises nothing. *)
Theorem add_variant_never_fails ctypes_func_string raw_symbol baseline
    feature_variants module source_file metadata :
  exists d,
    add_variant ctypes_func_string raw_symbol baseline feature_variants
                module source_file metadata = Returns d
    /\ obind (add_variant ctypes_func_string raw_symbol baseline
                          feature_variants module source_file metadata)
             (fun _ =>
                add_variant ctypes_func_string raw_symbol baseline
                            feature_variants module source_file metadata)
       = Returns d
    /\ d_symbol d = raw_symbol
    /\ d_ctypes_cfunctype d = CtStr ctypes_func_string
    /\ d_address d = None /\ d_cfunc d = None.
Proof. eexists. repeat split. Qed.

End Properties.

(** * The rest of the overlay *)

Section Coverage.

Variable E : collaborators.

(** ** [main]: the import of the specialized module *)

(** X1. Only an [ImportError] from the import of the specialized module is
    swallowed, be it of the class itself or of a class that descends from
    it, built in or defined by the user: [main] then goes on with the
    generic load.  Any other exception leaves [main] as it was raised,
    before anything has been bound, installed or warned about. *)
Theorem main_import_failure p obj w m e :
  mods w !! obj = Some m ->
  import_module E (sbs_name m) = Raises e ->
  (is_ImportError e = true ->
     main E p obj w = generic_load E p obj (log_import (sbs_name m) w))
  /\ (is_ImportError e = false ->
        main E p obj w = (Raises e, log_import (sbs_name m) w)
        /\ heap (snd (main E p obj w)) = heap w
        /\ mods (snd (main E p obj w)) = mods w
        /\ warnings (snd (main E p obj w)) = warnings w).
Proof.
  intros Hm Hi. split.
  - intros He. exact (main_without_specialized E p obj w m e Hm Hi He).
  - intros He.
    assert (H : main E p obj w = (Raises e, log_import (sbs_name m) w)).
    { unfold main, get_module, try_import, bind. rewrite Hm, Hi, He.
      reflexivity. }
    rewrite H. repeat split.
Qed.

(** An exception of a class the user derived from [ImportError] is
    swallowed like the built-in ones, and the generic load goes ahead. *)
Example scenario_user_defined_import_error :
  is_ImportError (MoreScenarios.StaleSpecialization "lib_pixie_specialized")
  = true
  /\ main MoreScenarios.stale_import Scenario.lib_payload 1
          (Scenario.unloaded "A1")
     = generic_load MoreScenarios.stale_import Scenario.lib_payload 1
         (log_import "lib_pixie_specialized" (Scenario.unloaded "A1"))
  /\ fst (main MoreScenarios.stale_import Scenario.lib_payload 1
               (Scenario.unloaded "A1")) = Returns tt.
Proof.
  split; [reflexivity |]. split; vm_compute; reflexivity.
Qed.

(** X2. A module that is importable under the specialized name but has no
    [__PIXIE__] makes [main] fail: the [AttributeError] of the attribute
    access is not caught, there is no fall-back to the generic load, and
    nothing is installed. *)
Theorem main_specialized_without_PIXIE p obj sm w m smod pd :
  mods w !! obj = Some m ->
  import_module E (sbs_name m) = Returns sm ->
  mods w !! sm = Some smod -> m_PIXIE smod = None ->
  heap w !! payload_PIXIE p = Some pd ->
  main E p obj w
  = (Raises (AttributeError "__PIXIE__"), log_import (sbs_name m) w).
Proof.
  intros Hm Hi Hsm Hls Hpd.
  unfold main, get_module, try_import, adopt_specialized,
    get_module_PIXIE, get_module, get_dict, bind, ret, raise.
  rewrite Hm, Hi.
  repeat (cbn [heap mods m_PIXIE set_heap set_mods log_import log_stdout];
          first [ rewrite Hpd | rewrite Hsm | rewrite Hls ]).
  reflexivity.
Qed.

(** X3. What adopting the specialized module changes.  The payload's own
    dictionary is left as it was, unbound; the one dictionary that changes
    is the specialized module's, whose ['is_specialized'] is now [True] for
    the specialized module as well; no module but the one being initialised
    changes; one line is printed and nothing is warned about. *)
Theorem adoption_side_effects p obj sm ls w m smod sd pd :
  mods w !! obj = Some m ->
  import_module E (sbs_name m) = Returns sm ->
  mods w !! sm = Some smod -> m_PIXIE smod = Some ls ->
  heap w !! ls = Some sd -> heap w !! payload_PIXIE p = Some pd ->
  pd_uuid pd = pd_uuid sd ->
  sm <> obj -> payload_PIXIE p <> ls ->
  exists w',
    main E p obj w = (Returns tt, w')
    /\ heap w' !! payload_PIXIE p = Some pd
    /\ (forall l, l <> ls -> heap w' !! l = heap w !! l)
    /\ mods w' !! sm = Some smod
    /\ heap w' !! ls = Some (set_is_specialized true sd)
    /\ (forall o, o <> obj -> mods w' !! o = mods w !! o)
    /\ stdout w' = stdout w ++ [loaded_msg smod m]
    /\ warnings w' = warnings w.
Proof.
  intros Hm Hi Hsm Hls Hsd Hpd Hu Hne Hlp.
  exists (adopted obj m smod ls sd w).
  split; [exact (main_adopts E p obj sm ls w m smod sd pd
                   Hm Hi Hsm Hls Hsd Hpd Hu) |].
  unfold adopted. cbn.
  split; [rewrite lookup_insert_ne by congruence; exact Hpd |].
  split; [intros l Hl; rewrite lookup_insert_ne by congruence; reflexivity |].
  split; [rewrite lookup_insert_ne by congruence; exact Hsm |].
  split; [apply lookup_insert_eq |].
  split; [intros o Ho; rewrite lookup_insert_ne by congruence; reflexivity |].
  split; reflexivity.
Qed.

(** ** [specialize]: the compiler object *)

(** On a loaded module [impl] calls the compiler once, on
    [specialize_request], whatever the compilation's outcome. *)
Lemma impl_request obj cpu features w m l d :
  mods w !! obj = Some m -> m_PIXIE m = Some l -> heap w !! l = Some d ->
  compilations (snd (impl E obj cpu features w))
  = compilations w ++ [specialize_request m d (target_cpu_of E cpu)
                                          (target_features_of features)].
Proof.
  intros Hm Hl Hd.
  rewrite (impl_loaded E obj cpu features w m l d Hm Hl Hd).
  unfold bind.
  match goal with |- context [compile E ?lib ?w1] =>
    destruct (compile_frame E lib w1) as (_ & _ & _ & Hc);
    destruct (compile E lib w1) as [[[]|e] w2]
  end; cbn [snd] in *; exact Hc.
Qed.

Lemma length_append a b :
  String.length (a +:+ b) = String.length a + String.length b.
Proof.
  induction a as [|c a IH]; [reflexivity |].
  change (S (String.length (a +:+ b))
          = S (String.length a + String.length b)).
  rewrite IH. reflexivity.
Qed.

Lemma append_neq_self a suffix : suffix <> "" -> a +:+ suffix <> a.
Proof.
  intros Hs Heq. apply (f_equal String.length) in Heq.
  rewrite length_append in Heq.
  destruct suffix as [|c suffix]; [contradiction |]. cbn in Heq. lia.
Qed.

(** X4. Specializing through a module that has adopted its specialized
    counterpart.  The dictionary the module now serves is the specialized
    module's, so the ['specialize'] entry found through it is the closure
    over the specialized module: calling it compiles a library named after
    the specialized module, in the directory of the specialized module's
    file, under the identity the two share.  That name is not the one
    [main] looks for when the original module is loaded. *)
Theorem specialize_through_adopted_module
    p obj sm ls w m smod sd pd cpu features :
  mods w !! obj = Some m ->
  import_module E (sbs_name m) = Returns sm ->
  mods w !! sm = Some smod -> m_PIXIE smod = Some ls ->
  heap w !! ls = Some sd -> heap w !! payload_PIXIE p = Some pd ->
  pd_uuid pd = pd_uuid sd -> sm <> obj ->
  m_name smod = sbs_name m ->
  pd_specialize sd = Some (specialize sm) ->
  exists w' m' l d c lib,
    main E p obj w = (Returns tt, w')
    /\ mods w' !! obj = Some m' /\ m_PIXIE m' = Some l
    /\ heap w' !! l = Some d /\ pd_specialize d = Some c
    /\ compilations (snd (call_impl E c (Some cpu) features w'))
       = compilations w' ++ [lib]
    /\ library_name lib = sbs_name m +:+ "_pixie_specialized"
    /\ library_name lib <> sbs_name m
    /\ output_dir lib = os_path_split_head (m_file smod)
    /\ uuid lib = pd_uuid pd.
Proof.
  intros Hm Hi Hsm Hls Hsd Hpd Hu Hne Hname Hsp.
  set (w' := adopted obj m smod ls sd w).
  assert (Hsm' : mods w' !! sm = Some smod).
  { unfold w', adopted. cbn. rewrite lookup_insert_ne by congruence.
    exact Hsm. }
  assert (Hd' : heap w' !! ls = Some (set_is_specialized true sd)).
  { unfold w', adopted. cbn. apply lookup_insert_eq. }
  exists w', (ModuleObj (m_name m) (m_file m) (Some ls)), ls,
    (set_is_specialized true sd), (specialize sm),
    (specialize_request smod (set_is_specialized true sd)
                        (target_cpu_of E cpu) (target_features_of features)).
  split; [exact (main_adopts E p obj sm ls w m smod sd pd
                   Hm Hi Hsm Hls Hsd Hpd Hu) |].
  split; [unfold w', adopted; cbn; apply lookup_insert_eq |].
  split; [reflexivity |]. split; [exact Hd' |]. split; [exact Hsp |].
  split; [exact (impl_request sm cpu features w' smod ls _ Hsm' Hls Hd') |].
  cbn [library_name output_dir uuid specialize_request].
  unfold specialized_lib_name. rewrite Hname.
  split; [reflexivity |].
  split; [apply append_neq_self; discriminate |].
  split; [reflexivity |]. cbn. symmetry. exact Hu.
Qed.

(** ** [main]: what it never does *)

Lemma keeps_try_import {X} (f : world -> X) name :
  (forall n w, f (log_import n w) = f w) -> keeps f (try_import E name).
Proof.
  intros Hf w. unfold try_import.
  destruct (import_module E name) as [sm|e]; [apply Hf |].
  destruct (is_ImportError e); apply Hf.
Qed.

Lemma keeps_main {X} (f : world -> X) p obj :
  (forall h w, f (set_heap h w) = f w) ->
  (forall ms w, f (set_mods ms w) = f w) ->
  (forall l w, f (log_stdout l w) = f w) ->
  (forall l w, f (log_warning l w) = f w) ->
  (forall n w, f (log_import n w) = f w) ->
  keeps f (main E p obj).
Proof.
  intros Hh Hm Hs Hw Hi. unfold main.
  apply keeps_bind; [apply keeps_get_module |]. intros m.
  apply keeps_bind; [apply keeps_try_import; exact Hi |]. intros o.
  apply keeps_bind.
  - destruct o; [| apply keeps_ret].
    apply keeps_adopt_specialized; assumption.
  - intros [|]; [apply keeps_ret |].
    apply keeps_generic_load; assumption.
Qed.

(** The branch for the specialized module warns at most once, and only when
    it falls through. *)
Lemma adopt_specialized_warnings p obj sm w :
  warnings (snd (adopt_specialized p obj sm w)) = warnings w
  \/ (fst (adopt_specialized p obj sm w) = Returns false
      /\ exists msg,
           warnings (snd (adopt_specialized p obj sm w)) = warnings w ++ [msg]).
Proof.
  unfold adopt_specialized, get_module_PIXIE, get_module, get_dict,
    set_module_PIXIE, update_dict, print, warnings_warn, bind, ret, raise.
  repeat case_match; simplify_eq/=; eauto.
Qed.

(** X5. Whatever its outcome, [main] never calls the compiler and writes
    nothing to disk; it hands at most one name to the import system and
    issues at most one warning. *)
Theorem main_bounded_effects p obj w :
  compilations (snd (main E p obj w)) = compilations w
  /\ disk (snd (main E p obj w)) = disk w
  /\ (imported (snd (main E p obj w)) = imported w
      \/ exists name, imported (snd (main E p obj w)) = imported w ++ [name])
  /\ (warnings (snd (main E p obj w)) = warnings w
      \/ exists msg, warnings (snd (main E p obj w)) = warnings w ++ [msg]).
Proof.
  split; [apply keeps_main; intros; reflexivity |].
  split; [apply keeps_main; intros; reflexivity |].
  split.
  - destruct (mods w !! obj) as [m|] eqn:Hm.
    + right. exists (sbs_name m). exact (main_imported E p obj w m Hm).
    + left. unfold main, get_module, bind. rewrite Hm. reflexivity.
  - remember (main E p obj w) as r eqn:Hr. unfold main in Hr.
    pose proof (keeps_get_module warnings obj w) as Hk1.
    unfold bind at 1 in Hr.
    destruct (get_module obj w) as [[m|e] w1]; cbn [snd] in *;
      [| subst r; left; exact Hk1].
    pose proof (keeps_try_import warnings (sbs_name m)
                  (fun _ _ => eq_refl) w1) as Hk2.
    unfold bind at 1 in Hr.
    destruct (try_import E (sbs_name m) w1) as [[o|e] w2]; cbn [snd] in *;
      [| subst r; left; cbn [snd]; congruence].
    unfold bind at 1 in Hr.
    destruct o as [sm|].
    + pose proof (adopt_specialized_warnings p obj sm w2) as Ha.
      destruct (adopt_specialized p obj sm w2) as [[[|]|e] w3];
        unfold ret in Hr; cbn [fst snd] in *; subst r; cbn [snd].
      * destruct Ha as [Ha|[Hf _]]; [left; congruence | discriminate Hf].
      * pose proof (keeps_generic_load E warnings p obj
                      (fun _ _ => eq_refl) (fun _ _ => eq_refl) w3) as Hk3.
        rewrite Hk3.
        destruct Ha as [Ha|[_ [msg Ha]]];
          [left; congruence | right; exists msg; congruence].
      * destruct Ha as [Ha|[Hf _]]; [left; congruence | discriminate Hf].
    + unfold ret at 1 in Hr. subst r.
      pose proof (keeps_generic_load E warnings p obj
                    (fun _ _ => eq_refl) (fun _ _ => eq_refl) w2) as Hk3.
      left. rewrite Hk3. congruence.
Qed.

(** ** The generic load, step by step *)

(** [bind_payload] evaluated, once the module, its image, the assemblers
    and the payload's dictionary are at hand: the binding loop writes what
    it has bound, then ['bitcode'] and ['specialize'] are filled in, and the
    first failure ends the run. *)
Lemma bind_payload_run p obj w m D fns d :
  mods w !! obj = Some m -> CDLL E (m_file m) = Returns D ->
  exec_assemblers (payload_assemblers p) ∅ = Returns fns ->
  heap w !! payload_PIXIE p = Some d ->
  bind_payload E p obj w =
  let bound := bind_symbols E fns D (pd_symbols d) in
  let d1 := set_symbols (snd bound) d in
  match fst bound with
  | Raises e => (Raises e, set_heap (<[payload_PIXIE p := d1]> (heap w)) w)
  | Returns _ =>
      match call_get_bitcode fns D m with
      | Raises e =>
          (Raises e, set_heap (<[payload_PIXIE p := d1]> (heap w)) w)
      | Returns bc =>
          match call_specialize fns obj with
          | Raises e =>
              (Raises e,
               set_heap (<[payload_PIXIE p := set_bitcode (Some bc) d1]>
                           (heap w)) w)
          | Returns sp =>
              (Returns tt,
               set_heap (<[payload_PIXIE p :=
                             set_specialize (Some sp)
                               (set_bitcode (Some bc) d1)]> (heap w)) w)
          end
      end
  end.
Proof.
  intros Hm HD Hf Hd.
  unfold bind_payload, get_module, get_dict, update_dict, lift, bind.
  rewrite Hm, HD, Hf, Hd, Hd. cbn zeta.
  destruct (fst (bind_symbols E fns D (pd_symbols d))) as [[]|e];
    [| reflexivity].
  destruct (call_get_bitcode fns D m) as [bc|e]; [| reflexivity].
  cbn [heap set_heap]. rewrite lookup_insert_eq.
  destruct (call_specialize fns obj) as [sp|e].
  - cbn [heap set_heap]. rewrite lookup_insert_eq.
    unfold set_heap. cbn. rewrite !insert_insert_eq. reflexivity.
  - unfold set_heap. cbn. rewrite !insert_insert_eq. reflexivity.
Qed.

(** The installation that ends a generic load whose binding returned. *)
Lemma generic_load_install p obj w m w1 :
  mods w !! obj = Some m -> mods w1 = mods w ->
  bind_payload E p obj w = (Returns tt, w1) ->
  generic_load E p obj w
  = (Returns tt,
     set_mods (<[obj := ModuleObj (m_name m) (m_file m)
                                  (Some (payload_PIXIE p))]> (mods w1)) w1).
Proof.
  intros Hm Hmods Hb. unfold generic_load.
  rewrite (bind_step _ _ _ _ _ Hb).
  unfold set_module_PIXIE. rewrite Hmods, Hm. reflexivity.
Qed.

Lemma generic_load_aborts p obj w e w1 :
  bind_payload E p obj w = (Raises e, w1) ->
  generic_load E p obj w = (Raises e, w1).
Proof.
  intros Hb. unfold generic_load. apply bind_raises. exact Hb.
Qed.

(** ** When the generic load returns *)








(** ** The assemblers *)

Lemma exec_lookup_returned fn src :
  returned (exec_lookup fn src) = assembler_key_ok (fn, src).
Proof.
  unfold exec_lookup, assembler_key_ok. cbn [fst snd].
  destruct (String.eqb fn (fn_name src)); [reflexivity |].
  destruct (String.eqb fn "ctypes"); [reflexivity |].
  destruct (String.eqb fn "__builtins__"); reflexivity.
Qed.

Lemma exec_lookup_bad fn src :
  assembler_key_ok (fn, src) = false ->
  exec_lookup fn src = Raises (KeyError fn).
Proof.
  unfold exec_lookup, assembler_key_ok. cbn [fst snd].
  destruct (String.eqb fn (fn_name src)); [discriminate |].
  destruct (String.eqb fn "ctypes"); [discriminate |].
  destruct (String.eqb fn "__builtins__"); [discriminate | reflexivity].
Qed.

Lemma exec_assemblers_returned func_dict fns :
  returned (exec_assemblers func_dict fns)
  = forallb assembler_key_ok func_dict.
Proof.
  revert fns. induction func_dict as [|[fn src] rest IH]; intros fns.
  - reflexivity.
  - cbn [exec_assemblers forallb].
    rewrite <- (exec_lookup_returned fn src).
    destruct (exec_lookup fn src) as [f|e]; cbn [obind returned andb].
    + apply IH.
    + reflexivity.
Qed.

Lemma exec_assemblers_bad func_dict :
  forallb assembler_key_ok func_dict = false ->
  exists fn src,
    In (fn, src) func_dict /\ assembler_key_ok (fn, src) = false
    /\ forall fns, exec_assemblers func_dict fns = Raises (KeyError fn).
Proof.
  induction func_dict as [|[fn src] rest IH]; intros Hb; [discriminate Hb |].
  cbn [forallb] in Hb.
  destruct (assembler_key_ok (fn, src)) eqn:Hk.
  - cbn [andb] in Hb. destruct (IH Hb) as (fn' & src' & Hin & Hbad & Hex).
    exists fn', src'. split; [right; exact Hin |]. split; [exact Hbad |].
    intros fns. cbn [exec_assemblers].
    rewrite <- exec_lookup_returned in Hk.
    destruct (exec_lookup fn src) as [f|e]; [| discriminate Hk].
    cbn [obind]. apply Hex.
  - exists fn, src. split; [left; reflexivity |]. split; [exact Hk |].
    intros fns. cbn [exec_assemblers].
    rewrite (exec_lookup_bad fn src Hk). reflexivity.
Qed.

Lemma exec_assemblers_first_bad good fn src rest fns :
  forallb assembler_key_ok good = true ->
  assembler_key_ok (fn, src) = false ->
  exec_assemblers (good ++ (fn, src) :: rest) fns = Raises (KeyError fn).
Proof.
  revert fns. induction good as [|[fn0 src0] good IH]; intros fns Hg Hb.
  - cbn [app exec_assemblers]. rewrite (exec_lookup_bad fn src Hb).
    reflexivity.
  - cbn [forallb] in Hg. apply andb_true_iff in Hg as [Hk Hg].
    cbn [app exec_assemblers].
    rewrite <- exec_lookup_returned in Hk.
    destruct (exec_lookup fn0 src0) as [f|e]; [| discriminate Hk].
    cbn [obind]. apply IH; assumption.
Qed.

Lemma forallb_first_false {A} (f : A -> bool) l :
  forallb f l = false ->
  exists good x rest,
    l = good ++ x :: rest /\ forallb f good = true /\ f x = false.
Proof.
  induction l as [|a l IH]; intros Hb; [discriminate Hb |].
  cbn [forallb] in Hb. destruct (f a) eqn:Ha.
  - cbn [andb] in Hb. destruct (IH Hb) as (good & x & rest & -> & Hg & Hx).
    exists (a :: good), x, rest. split; [reflexivity |].
    split; [cbn [forallb]; rewrite Ha, Hg; reflexivity | exact Hx].
  - exists [], a, l. split; [reflexivity |]. split; [reflexivity | exact Ha].
Qed.

(** X8. The assemblers are accepted exactly when every key is the name of
    the function its text defines (or one of the two names [exec] leaves in
    its namespace).  A payload with another key makes the load raise
    [KeyError] for the first such key, the one that only accepted keys
    precede, before the dictionary is read: nothing is bound and the world
    is as before.  A payload that is not accepted has such a first key. *)
Theorem load_with_misnamed_assembler p obj w m D :
  mods w !! obj = Some m -> CDLL E (m_file m) = Returns D ->
  returned (exec_assemblers (payload_assemblers p) ∅)
  = forallb assembler_key_ok (payload_assemblers p)
  /\ (forall good fn src rest,
        payload_assemblers p = good ++ (fn, src) :: rest ->
        forallb assembler_key_ok good = true ->
        assembler_key_ok (fn, src) = false ->
        generic_load E p obj w = (Raises (KeyError fn), w))
  /\ (forallb assembler_key_ok (payload_assemblers p) = false ->
      exists good fn src rest,
        payload_assemblers p = good ++ (fn, src) :: rest
        /\ forallb assembler_key_ok good = true
        /\ assembler_key_ok (fn, src) = false
        /\ generic_load E p obj w = (Raises (KeyError fn), w)).
Proof.
  intros Hm HD. split; [apply exec_assemblers_returned |].
  assert (Hfirst : forall good fn src rest,
             payload_assemblers p = good ++ (fn, src) :: rest ->
             forallb assembler_key_ok good = true ->
             assembler_key_ok (fn, src) = false ->
             generic_load E p obj w = (Raises (KeyError fn), w)).
  { intros good fn src rest Hp Hg Hb.
    apply generic_load_aborts.
    unfold bind_payload, get_module, lift, bind.
    rewrite Hm, HD, Hp, (exec_assemblers_first_bad good fn src rest ∅ Hg Hb).
    reflexivity. }
  split; [exact Hfirst |].
  intros Hb.
  destruct (forallb_first_false assembler_key_ok (payload_assemblers p) Hb)
    as (good & [fn src] & rest & Hp & Hg & Hx).
  exists good, fn, src, rest.
  split; [exact Hp |]. split; [exact Hg |]. split; [exact Hx |].
  exact (Hfirst good fn src rest Hp Hg Hx).
Qed.

(** ** A failed binding *)





(** ** Loading twice *)

Lemma bind_data_bound fns D data proto :
  d_ctypes_cfunctype data = CtBinding proto ->
  bind_data E fns D data
  = (Raises (TypeError "eval() arg 1 must be a string"), data).
Proof. intros Hc. unfold bind_data. rewrite Hc. reflexivity. Qed.

(** Binding a manifest that is bound already: the first signature met
    raises and nothing changes. *)
Lemma bind_symbols_bound fns D symbols :
  Forall (fun g =>
            Forall (fun o => exists proto,
                        d_ctypes_cfunctype (snd o) = CtBinding proto)
                   (snd g)) symbols ->
  export_table symbols <> [] ->
  bind_symbols E fns D symbols
  = (Raises (TypeError "eval() arg 1 must be a string"), symbols).
Proof.
  unfold bind_symbols.
  induction symbols as [|[name overloads] symbols IH]; intros Hall Hne.
  - contradiction.
  - apply Forall_cons in Hall as [Hg Hall]. cbn [snd] in Hg.
    cbn [for_items].
    destruct overloads as [|[sig data] overloads].
    + cbn [for_items]. unfold export_table in Hne. cbn in Hne.
      rewrite (IH Hall Hne). reflexivity.
    + apply Forall_cons in Hg as [(proto & Hc) _]. cbn [snd] in Hc.
      cbn [for_items]. rewrite (bind_data_bound fns D data proto Hc).
      reflexivity.
Qed.

Lemma symbols_resolved_bound D symbols symbols' :
  symbols_resolved E D symbols symbols' ->
  Forall (fun g =>
            Forall (fun o => exists proto,
                        d_ctypes_cfunctype (snd o) = CtBinding proto)
                   (snd g)) symbols'
  /\ export_table symbols'
     = map (fun t => (fst (fst t), snd (fst t), snd t)) (export_table symbols).
Proof.
  intros H. induction H as [|g g' l l' [Hn Ho] _ [IH1 IH2]].
  - split; [constructor | reflexivity].
  - assert (Hg : Forall (fun o => exists proto,
                           d_ctypes_cfunctype (snd o) = CtBinding proto)
                        (snd g')
                 /\ map (fun o => (fst g', d_symbol (snd o), fst o)) (snd g')
                    = map (fun o => (fst g, d_symbol (snd o), fst o)) (snd g)).
    { rewrite <- Hn. clear -Ho.
      induction Ho as [|o o' k k' [Hs (proto & _ & Hr & _)] _ [IHa IHb]].
      - split; [constructor | reflexivity].
      - split.
        + constructor; [| exact IHa]. exists proto. rewrite Hr. reflexivity.
        + cbn [map]. rewrite IHb, Hr, Hs. reflexivity. }
    destruct Hg as [Hg1 Hg2]. split.
    + constructor; assumption.
    + unfold export_table in *. cbn [flat_map]. rewrite map_app, Hg2, IH2.
      f_equal. rewrite map_map. apply map_ext. intros o. reflexivity.
Qed.

(** The exports of a manifest are those it had before it was bound. *)
Lemma export_table_resolved D symbols symbols' :
  symbols_resolved E D symbols symbols' ->
  export_table symbols' = export_table symbols.
Proof.
  intros H. destruct (symbols_resolved_bound D symbols symbols' H) as [_ Ht].
  rewrite Ht. rewrite <- (map_id (export_table symbols)) at 2.
  apply map_ext. intros [[a b] c]. reflexivity.
Qed.

Lemma set_heap_same w : set_heap (heap w) w = w.
Proof. destruct w. reflexivity. Qed.

(** X11. The generic load cannot be run twice on one payload.  After a load
    that has returned, the prototypes in the manifest are no longer source
    text, so a second load of a manifest with at least one signature raises
    the [TypeError] of [eval] at the first signature and changes nothing:
    the module keeps the dictionary the first load installed. *)
Theorem generic_load_twice p obj w w' m D d :
  mods w !! obj = Some m -> CDLL E (m_file m) = Returns D ->
  heap w !! payload_PIXIE p = Some d ->
  export_table (pd_symbols d) <> [] ->
  generic_load E p obj w = (Returns tt, w') ->
  generic_load E p obj w'
  = (Raises (TypeError "eval() arg 1 must be a string"), w').
Proof.
  intros Hm HD Hd Hne Hl. unfold generic_load in Hl.
  apply bind_returns in Hl as ([] & w1 & Hb & Hs).
  destruct (bind_payload_returns E p obj w w1 Hb)
    as (m0 & D0 & fns & d0 & symbols' & bc & Hm0 & HD0 & Hf & Hd0 & Hsy
        & Hbc & Hd' & Hmods).
  rewrite Hm in Hm0. injection Hm0 as <-.
  rewrite HD in HD0. injection HD0 as <-.
  rewrite Hd in Hd0. injection Hd0 as <-.
  unfold set_module_PIXIE in Hs. rewrite Hmods, Hm in Hs.
  injection Hs as <-.
  apply bind_symbols_returns in Hsy as [Hres _].
  destruct (symbols_resolved_bound D _ _ Hres) as [Hbound _].
  pose proof (export_table_resolved D _ _ Hres) as Ht.
  set (w' := set_mods _ w1).
  assert (Hm' : mods w' !! obj
                = Some (ModuleObj (m_name m) (m_file m)
                                  (Some (payload_PIXIE p))))
    by (unfold w'; cbn; apply lookup_insert_eq).
  assert (Hdw : heap w' !! payload_PIXIE p
                = Some (bound_dict d symbols' bc obj)) by exact Hd'.
  apply generic_load_aborts.
  rewrite (bind_payload_run p obj w' _ D fns _ Hm' HD Hf Hdw).
  cbn zeta. cbn [pd_symbols bound_dict set_specialize set_bitcode set_symbols].
  rewrite (bind_symbols_bound fns D symbols' Hbound)
    by (rewrite Ht; exact Hne).
  cbn [fst snd].
  replace (<[payload_PIXIE p := _]> (heap w')) with (heap w').
  - rewrite set_heap_same. reflexivity.
  - symmetry. apply insert_id. exact Hdw.
Qed.

(** ** What a generic load leaves alone *)

Lemma for_items_keys {V} (body : V -> outcome unit * V) items :
  map fst (snd (for_items body items)) = map fst items.
Proof.
  induction items as [|[k v] rest IH]; [reflexivity |].
  cbn [for_items].
  destruct (body v) as [[[]|e] v']; [| reflexivity].
  destruct (for_items body rest) as [r rest']. cbn [snd map fst] in *.
  rewrite IH. reflexivity.
Qed.

Lemma bind_symbols_signatures fns D symbols :
  signatures (snd (bind_symbols E fns D symbols)) = signatures symbols.
Proof.
  unfold bind_symbols, signatures.
  induction symbols as [|[name overloads] symbols IH]; [reflexivity |].
  cbn [for_items].
  pose proof (for_items_keys (bind_data E fns D) overloads) as Hk.
  destruct (for_items (bind_data E fns D) overloads) as [[[]|e] overloads'];
    cbn [snd] in Hk.
  - destruct (for_items (for_items (bind_data E fns D)) symbols)
      as [r symbols'].
    cbn [snd map fst] in *. rewrite Hk, IH. reflexivity.
  - cbn [snd map fst]. rewrite Hk. reflexivity.
Qed.

Lemma same_header_refl d : same_header d d.
Proof. repeat split. Qed.

(** The heap after [bind_payload], whatever its outcome: as before, or with
    the payload's dictionary replaced by one with the same header. *)
Lemma bind_payload_heap p obj w :
  heap (snd (bind_payload E p obj w)) = heap w
  \/ exists d d',
       heap w !! payload_PIXIE p = Some d
       /\ heap (snd (bind_payload E p obj w))
          = <[payload_PIXIE p := d']> (heap w)
       /\ same_header d d'.
Proof.
  destruct (mods w !! obj) as [m|] eqn:Hm;
    [| left; unfold bind_payload, get_module, bind; rewrite Hm; reflexivity].
  destruct (CDLL E (m_file m)) as [D|e] eqn:HD;
    [| left; unfold bind_payload, get_module, lift, bind; rewrite Hm, HD;
       reflexivity].
  destruct (exec_assemblers (payload_assemblers p) ∅) as [fns|e] eqn:Hf;
    [| left; unfold bind_payload, get_module, lift, bind;
       rewrite Hm, HD, Hf; reflexivity].
  destruct (heap w !! payload_PIXIE p) as [d|] eqn:Hd;
    [| left; unfold bind_payload, get_module, get_dict, lift, bind;
       rewrite Hm, HD, Hf, Hd; reflexivity].
  right. exists d.
  rewrite (bind_payload_run p obj w m D fns d Hm HD Hf Hd). cbn zeta.
  pose proof (bind_symbols_signatures fns D (pd_symbols d)) as Hsig.
  destruct (fst (bind_symbols E fns D (pd_symbols d))) as [[]|e];
    [| eexists; split; [reflexivity |]; split; [reflexivity |];
       repeat split; exact Hsig].
  destruct (call_get_bitcode fns D m) as [bc|e];
    [| eexists; split; [reflexivity |]; split; [reflexivity |];
       repeat split; exact Hsig].
  destruct (call_specialize fns obj) as [sp|e];
    eexists; (split; [reflexivity |]); (split; [reflexivity |]);
    repeat split; exact Hsig.
Qed.

Lemma generic_load_heap p obj w :
  heap (snd (generic_load E p obj w)) = heap (snd (bind_payload E p obj w)).
Proof.
  unfold generic_load, bind.
  destruct (bind_payload E p obj w) as [[[]|e] w1]; [| reflexivity].
  apply (keeps_set_module_PIXIE heap obj (payload_PIXIE p)).
  intros. reflexivity.
Qed.

(** X12. What a generic load leaves alone, whatever its outcome.  No
    dictionary but the payload's changes, and in the payload's the identity,
    the ['is_specialized'] flag, the header, the linkage and the exported
    names with their signatures stay as they were; no module but the one
    being initialised changes, and that one keeps its name and its file;
    nothing is printed. *)
Theorem generic_load_frame p obj w :
  (forall l, l <> payload_PIXIE p ->
     heap (snd (generic_load E p obj w)) !! l = heap w !! l)
  /\ (forall d, heap w !! payload_PIXIE p = Some d ->
        exists d',
          heap (snd (generic_load E p obj w)) !! payload_PIXIE p = Some d'
          /\ same_header d d')
  /\ (forall o, o <> obj ->
        mods (snd (generic_load E p obj w)) !! o = mods w !! o)
  /\ (forall m, mods w !! obj = Some m ->
        exists m',
          mods (snd (generic_load E p obj w)) !! obj = Some m'
          /\ m_name m' = m_name m /\ m_file m' = m_file m)
  /\ stdout (snd (generic_load E p obj w)) = stdout w.
Proof.
  rewrite generic_load_heap.
  pose proof (bind_payload_heap p obj w) as Hh.
  pose proof (generic_load_mods E p obj w) as Hm.
  split; [| split; [| split; [| split]]].
  - intros l Hl. destruct Hh as [->|(d & d' & _ & -> & _)]; [reflexivity |].
    apply lookup_insert_ne. congruence.
  - intros d Hd. destruct Hh as [->|(d0 & d' & Hd0 & -> & Hsame)].
    + exists d. split; [exact Hd | apply same_header_refl].
    + rewrite Hd in Hd0. injection Hd0 as <-.
      exists d'. split; [apply lookup_insert_eq | exact Hsame].
  - intros o Ho.
    destruct (fst (generic_load E p obj w)) as [[]|e].
    + destruct Hm as (m & _ & ->). apply lookup_insert_ne. congruence.
    + rewrite Hm. reflexivity.
  - intros m Hmo.
    destruct (fst (generic_load E p obj w)) as [[]|e].
    + destruct Hm as (m0 & Hm0 & ->). rewrite Hmo in Hm0.
      injection Hm0 as <-. eexists. rewrite lookup_insert_eq.
      split; [reflexivity | split; reflexivity].
    + rewrite Hm. exists m. repeat split. exact Hmo.
  - apply keeps_generic_load; intros; reflexivity.
Qed.

(** ** [get_bitcode] *)

(** X13. [get_bitcode] returns exactly when the image exports both
    accessors named after the module, the size word read as a signed 64-bit
    integer is not negative and no more than a [bytes] object can hold
    ([2^63 - 34] bytes), the data pointer is not null, and the process has
    room for the copy; it then returns the bytes read at that pointer, as
    many as the size says.  A size word at or above [2^63] is a negative
    length. *)
Theorem get_bitcode_returns_iff D obj b :
  get_bitcode D obj = Returns b
  <-> dso_dlsym D (bitcode_size_symbol obj) <> 0%Z
      /\ dso_dlsym D (bitcode_data_symbol obj) <> 0%Z
      /\ (dso_call D (dso_dlsym D (bitcode_size_symbol obj)) mod 2 ^ 64
          <= 2 ^ 63 - 34)%Z
      /\ (dso_call D (dso_dlsym D (bitcode_data_symbol obj)) mod 2 ^ 64
          <> 0)%Z
      /\ dso_alloc D
           (Z.to_nat
              (dso_call D (dso_dlsym D (bitcode_size_symbol obj))
               mod 2 ^ 64)) = true
      /\ b = dso_read D
               (dso_call D (dso_dlsym D (bitcode_data_symbol obj)) mod 2 ^ 64)
               (Z.to_nat
                  (dso_call D (dso_dlsym D (bitcode_size_symbol obj))
                   mod 2 ^ 64)).
Proof.
  unfold get_bitcode, bitcode_size_symbol, bitcode_data_symbol, CDLL_getattr.
  set (sz := dso_dlsym D _). set (da := dso_dlsym D _).
  cbn [obind].
  destruct (Z.eqb_spec sz 0) as [Hsz|Hsz].
  { cbn [obind]. split; [discriminate | intros (H & _); contradiction]. }
  cbn [obind].
  destruct (Z.eqb_spec da 0) as [Hda|Hda].
  { cbn [obind]. split; [discriminate | intros (_ & H & _); contradiction]. }
  cbn [obind fp_addr].
  unfold c_long, c_void_p, c_void_p_value, bytes_from_address,
    PY_SSIZE_T_MAX, PyBytesObject_SIZE.
  set (s := (dso_call D sz mod 2 ^ 64)%Z).
  set (a := (dso_call D da mod 2 ^ 64)%Z).
  assert (Hs : (0 <= s < 2 ^ 64)%Z) by (apply Z.mod_pos_bound; lia).
  cbn zeta.
  destruct (Z.ltb_spec s (2 ^ 63)) as [Hlt|Hge].
  - destruct (Z.ltb_spec s 0) as [Hneg|Hnn]; [lia |].
    destruct (Z.eqb_spec a 0) as [Ha|Ha].
    + split; [discriminate | intros (_ & _ & _ & H & _); contradiction].
    + destruct (Z.ltb_spec (2 ^ 63 - 1 - 33) s) as [Hbig|Hfit].
      * split; [discriminate | intros (_ & _ & H & _); lia].
      * destruct (dso_alloc D (Z.to_nat s)) eqn:Hroom.
        -- split.
           ++ intros H. injection H as <-.
              repeat split; try assumption; lia.
           ++ intros (_ & _ & _ & _ & _ & ->). reflexivity.
        -- split; [discriminate |].
           intros (_ & _ & _ & _ & H & _). discriminate H.
  - destruct (Z.ltb_spec (s - 2 ^ 64) 0) as [Hneg|Hnn]; [| lia].
    split; [discriminate | intros (_ & _ & H & _); lia].
Qed.

(** The errors of [get_bitcode] on the image of [lib] for a size accessor
    that answers a negative length, the longest length a C long holds, and
    a length the process has no room for. *)
Example scenario_bitcode_sizes :
  get_bitcode (MoreScenarios.image_with_size (-1)) Scenario.lib_module
  = Raises (ValueError "Array length must be >= 0, not -1")
  /\ get_bitcode (MoreScenarios.image_with_size (2 ^ 63 - 1))
                 Scenario.lib_module
     = Raises (OverflowError "byte string is too large")
  /\ get_bitcode (MoreScenarios.image_with_size 8192) Scenario.lib_module
     = Raises (MemoryError "")
  /\ get_bitcode (MoreScenarios.image_with_size 2) Scenario.lib_module
     = Returns [].
Proof.
  repeat split; vm_compute; reflexivity.
Qed.

(** ** [specialize]: what the compiler is given *)

Lemma export_overloads_spec pysym variants ec :
  export_overloads pysym variants ec
  = MkExportConfiguration (ec_style ec)
      (ec_symbols ec
       ++ map (fun o => (pysym, d_symbol (snd o), fst o)) variants).
Proof.
  unfold export_overloads. revert ec.
  induction variants as [|o variants IH]; intros ec.
  - cbn. rewrite app_nil_r. destruct ec. reflexivity.
  - cbn [fold_left map]. rewrite IH. unfold add_symbol.
    cbn [ec_style ec_symbols]. rewrite <- app_assoc. reflexivity.
Qed.

Lemma export_symbols_spec symbols ec :
  export_symbols symbols ec
  = MkExportConfiguration (ec_style ec) (ec_symbols ec ++ export_table symbols).
Proof.
  unfold export_symbols, export_table. revert ec.
  induction symbols as [|g symbols IH]; intros ec.
  - cbn. rewrite app_nil_r. destruct ec. reflexivity.
  - cbn [fold_left flat_map]. rewrite IH, export_overloads_spec.
    cbn [ec_style ec_symbols]. rewrite <- app_assoc. reflexivity.
Qed.

Lemma export_table_In symbols name symbol sig :
  In (name, symbol, sig) (export_table symbols) ->
  exists overloads data,
    In (name, overloads) symbols /\ In (sig, data) overloads
    /\ symbol = d_symbol data.
Proof.
  unfold export_table. intros H. apply in_flat_map in H as (g & Hg & H).
  apply in_map_iff in H as (o & Heq & Ho). injection Heq as <- <- <-.
  exists (snd g), (snd o). destruct g, o. repeat split; assumption.
Qed.

(** X14. What [specialize] gives the compiler besides the target: one
    translation unit, named ["self"], holding the dictionary's bitcode; the
    export style ["embed_dso"] with one export per exported name and
    signature, in the dictionary's order, each under the compiled symbol of
    the baseline; and no feature targets.  The symbols of the feature
    variants are not passed on. *)
Theorem specialize_compiler_input obj cpu features w m l d :
  mods w !! obj = Some m -> m_PIXIE m = Some l -> heap w !! l = Some d ->
  exists lib,
    compilations (snd (impl E obj cpu features w)) = compilations w ++ [lib]
    /\ translation_units lib = [MkTranslationUnit "self" (pd_bitcode d)]
    /\ export_configuration lib
       = MkExportConfiguration "embed_dso" (export_table (pd_symbols d))
    /\ (forall name symbol sig,
          In (name, symbol, sig) (ec_symbols (export_configuration lib)) ->
          exists overloads data,
            In (name, overloads) (pd_symbols d) /\ In (sig, data) overloads
            /\ symbol = d_symbol data)
    /\ targets_features lib = [] /\ python_cext lib = true.
Proof.
  intros Hm Hl Hd. eexists.
  split; [exact (impl_request obj cpu features w m l d Hm Hl Hd) |].
  cbn [translation_units export_configuration targets_features python_cext
       specialize_request].
  rewrite export_symbols_spec. cbn [ec_style ec_symbols app].
  split; [reflexivity |]. split; [reflexivity |].
  split; [| split; reflexivity].
  intros name symbol sig. apply export_table_In.
Qed.

(** X15. Specializing a module that has not been loaded: the access to
    [obj.__PIXIE__] raises [AttributeError] after the first line has been
    printed; the compiler is not called and nothing is written. *)
Theorem specialize_unloaded_module obj cpu features w m :
  mods w !! obj = Some m -> m_PIXIE m = None ->
  impl E obj cpu features w
  = (Raises (AttributeError "__PIXIE__"),
     log_stdout (impl_banner E cpu features) w)
  /\ compilations (snd (impl E obj cpu features w)) = compilations w
  /\ disk (snd (impl E obj cpu features w)) = disk w.
Proof.
  intros Hm Hl.
  assert (H : impl E obj cpu features w
              = (Raises (AttributeError "__PIXIE__"),
                 log_stdout (impl_banner E cpu features) w)).
  { unfold impl, print, get_module_PIXIE, get_module, bind, raise.
    cbn [mods log_stdout]. rewrite Hm, Hl. reflexivity. }
  rewrite H. repeat split.
Qed.

Lemma call_get_bitcode_returns fns D m bc :
  call_get_bitcode fns D m = Returns bc -> get_bitcode D m = Returns bc.
Proof.
  unfold call_get_bitcode.
  destruct (fns !! "get_bitcode") as [[[]| |]|]; try discriminate.
  trivial.
Qed.

(** X16. Specializing a module after its generic load.  The closure the
    load stored under ['specialize'] compiles, for the module itself, the
    bitcode the load read from the image, under the identity and with the
    exports the payload had; the library it names is the one [main] looks
    for when the module is loaded again. *)
Theorem specialize_after_load p obj w w' m D d cpu features :
  mods w !! obj = Some m -> CDLL E (m_file m) = Returns D ->
  heap w !! payload_PIXIE p = Some d ->
  generic_load E p obj w = (Returns tt, w') ->
  exists d' c bc lib,
    heap w' !! payload_PIXIE p = Some d'
    /\ pd_specialize d' = Some c
    /\ get_bitcode D m = Returns bc
    /\ compilations (snd (call_impl E c (Some cpu) features w'))
       = compilations w' ++ [lib]
    /\ translation_units lib = [MkTranslationUnit "self" (Some bc)]
    /\ uuid lib = pd_uuid d
    /\ ec_symbols (export_configuration lib) = export_table (pd_symbols d)
    /\ library_name lib = sbs_name m
    /\ output_dir lib = os_path_split_head (m_file m).
Proof.
  intros Hm HD Hd Hl. unfold generic_load in Hl.
  apply bind_returns in Hl as ([] & w1 & Hb & Hs).
  destruct (bind_payload_returns E p obj w w1 Hb)
    as (m0 & D0 & fns & d0 & symbols' & bc & Hm0 & HD0 & Hf & Hd0 & Hsy
        & Hbc & Hd' & Hmods).
  rewrite Hm in Hm0. injection Hm0 as <-.
  rewrite HD in HD0. injection HD0 as <-.
  rewrite Hd in Hd0. injection Hd0 as <-.
  unfold set_module_PIXIE in Hs. rewrite Hmods, Hm in Hs.
  injection Hs as <-.
  apply bind_symbols_returns in Hsy as [Hres _].
  pose proof (export_table_resolved D _ _ Hres) as Ht.
  set (w' := set_mods _ w1).
  assert (Hm' : mods w' !! obj
                = Some (ModuleObj (m_name m) (m_file m)
                                  (Some (payload_PIXIE p))))
    by (unfold w'; cbn; apply lookup_insert_eq).
  assert (Hdw : heap w' !! payload_PIXIE p
                = Some (bound_dict d symbols' bc obj)) by exact Hd'.
  exists (bound_dict d symbols' bc obj), (specialize obj), bc.
  eexists.
  split; [exact Hdw |]. split; [reflexivity |].
  split; [exact (call_get_bitcode_returns fns D m bc Hbc) |].
  split; [exact (impl_request obj cpu features w' _ _ _ Hm' eq_refl Hdw) |].
  cbn [translation_units uuid export_configuration library_name output_dir
       specialize_request].
  rewrite export_symbols_spec. cbn [ec_style ec_symbols app].
  cbn [pd_symbols pd_bitcode pd_uuid bound_dict set_specialize set_bitcode
       set_symbols m_name m_file].
  repeat split. exact Ht.
Qed.

(** ** Where the specialized library goes *)

Lemma drop_tail_rev_component l r :
  forallb (fun a => negb (Ascii.eqb a "/")) l = true ->
  drop_tail_rev (l ++ "/"%char :: r) = "/"%char :: r.
Proof.
  induction l as [|a l IH]; intros Hl.
  - reflexivity.
  - cbn [forallb] in Hl. apply andb_true_iff in Hl as [Ha Hl].
    cbn [app drop_tail_rev]. apply negb_true_iff in Ha. rewrite Ha.
    apply IH. exact Hl.
Qed.

Lemma drop_tail_rev_no_slash l :
  forallb (fun a => negb (Ascii.eqb a "/")) l = true ->
  drop_tail_rev l = [].
Proof.
  induction l as [|a l IH]; intros Hl; [reflexivity |].
  cbn [forallb] in Hl. apply andb_true_iff in Hl as [Ha Hl].
  cbn [drop_tail_rev]. apply negb_true_iff in Ha. rewrite Ha.
  apply IH. exact Hl.
Qed.

Lemma forallb_rev_true {A} (f : A -> bool) l :
  forallb f l = true -> forallb f (rev l) = true.
Proof.
  rewrite !forallb_forall. intros H x Hx. apply H. apply in_rev. exact Hx.
Qed.

(** X17. Where the specialized library goes.  For a module whose file is
    [dir/base], with [base] free of slashes and [dir] not ending in one, the
    output directory is [dir]; for a file name without any slash it is the
    empty path.  The library's name is never the module's own name. *)
Theorem specialized_library_location m d cpu features :
  (forall d0 c base,
     m_file m = (d0 +:+ String c "") +:+ "/" +:+ base ->
     c <> "/"%char -> has_no_slash base = true ->
     output_dir (specialize_request m d cpu features) = d0 +:+ String c "")
  /\ (has_no_slash (m_file m) = true ->
      output_dir (specialize_request m d cpu features) = "")
  /\ library_name (specialize_request m d cpu features) <> m_name m.
Proof.
  cbn [output_dir library_name specialize_request].
  split; [| split].
  - intros d0 c base Hfile Hc Hbase. rewrite Hfile.
    unfold os_path_split_head, has_no_slash in *.
    rewrite !list_ascii_of_string_append.
    change (list_ascii_of_string "/") with ["/"%char].
    change (list_ascii_of_string (String c "")) with [c].
    rewrite rev_app_distr. cbn [app]. rewrite rev_app_distr.
    change (rev ("/"%char :: list_ascii_of_string base))
      with (rev (list_ascii_of_string base) ++ ["/"%char]).
    cbn [rev app]. rewrite <- app_assoc. cbn [app].
    rewrite drop_tail_rev_component by (apply forallb_rev_true; exact Hbase).
    cbn [rstrip_slash_rev]. rewrite Ascii.eqb_refl.
    destruct (Ascii.eqb_spec c "/"); [contradiction |].
    cbn [rev]. rewrite rev_involutive.
    rewrite <- (string_of_list_ascii_of_string (d0 +:+ String c "")).
    rewrite list_ascii_of_string_append. reflexivity.
  - intros Hfile. unfold os_path_split_head, has_no_slash in *.
    rewrite drop_tail_rev_no_slash by (apply forallb_rev_true; exact Hfile).
    reflexivity.
  - unfold specialized_lib_name. apply append_neq_self. discriminate.
Qed.

(** ** [create_base_payload] *)

(** X18. [create_base_payload] makes a dictionary of its own: its reference
    was not in use, every dictionary that existed is as it was, and a second
    call gives another dictionary.  The payload it returns, which exports
    nothing, loads on any module whose shared object opens and yields
    bitcode, without a single symbol lookup for exports; the dictionary
    installed then has no identity and is not specialized. *)
Theorem create_base_payload_loads obj w m D bc :
  mods w !! obj = Some m -> CDLL E (m_file m) = Returns D ->
  get_bitcode D m = Returns bc ->
  exists p w1 p2 w2 w3,
    create_base_payload w = (Returns p, w1)
    /\ heap w !! payload_PIXIE p = None
    /\ (forall l, l <> payload_PIXIE p -> heap w1 !! l = heap w !! l)
    /\ mods w1 = mods w
    /\ create_base_payload w1 = (Returns p2, w2)
    /\ payload_PIXIE p2 <> payload_PIXIE p
    /\ generic_load E p obj w1 = (Returns tt, w3)
    /\ heap w3 !! payload_PIXIE p
       = Some (set_specialize (Some (specialize obj))
                 (set_bitcode (Some bc) PIXIE_dunder))
    /\ mods w3 !! obj
       = Some (ModuleObj (m_name m) (m_file m) (Some (payload_PIXIE p))).
Proof.
  intros Hm HD Hbc.
  set (l := fresh (dom (heap w))).
  assert (Hfresh : heap w !! l = None).
  { apply not_elem_of_dom. apply is_fresh. }
  set (w1 := set_heap (<[l := PIXIE_dunder]> (heap w)) w).
  set (l2 := fresh (dom (heap w1))).
  assert (Hl2 : l2 <> l).
  { intros Heq. assert (Hin : l2 ∉ dom (heap w1)) by apply is_fresh.
    apply Hin. rewrite Heq. apply elem_of_dom. unfold w1. cbn.
    rewrite lookup_insert_eq. eexists. reflexivity. }
  destruct exec_PIXIE_assemblers as (fns & Hf & Ha & Hg & Hs).
  assert (Hd1 : heap w1 !! l = Some PIXIE_dunder)
    by (unfold w1; cbn; apply lookup_insert_eq).
  pose proof (bind_payload_run (Payload l PIXIE_assemblers) obj w1 m D fns
                PIXIE_dunder Hm HD Hf Hd1) as Hrun.
  cbn zeta in Hrun. cbn [pd_symbols PIXIE_dunder] in Hrun.
  unfold bind_symbols in Hrun. cbn [for_items fst snd] in Hrun.
  unfold call_get_bitcode, call_specialize in Hrun.
  rewrite Hg, Hs, Hbc in Hrun. cbn [payload_PIXIE] in Hrun.
  exists (Payload l PIXIE_assemblers), w1, (Payload l2 PIXIE_assemblers).
  eexists. eexists.
  split; [reflexivity |]. split; [exact Hfresh |].
  split; [intros l0 Hl0; unfold w1; cbn; apply lookup_insert_ne;
          cbn in Hl0; congruence |].
  split; [reflexivity |]. split; [reflexivity |]. split; [exact Hl2 |].
  split.
  - eapply (generic_load_install (Payload l PIXIE_assemblers) obj w1 m);
      [exact Hm | | exact Hrun].
    reflexivity.
  - split; [cbn; apply lookup_insert_eq |].
    cbn. apply lookup_insert_eq.
Qed.

(** ** [add_variant], then the binding loop *)


End Coverage.

(** * The scenario, run *)

Section ScenarioRuns.

Import Scenario.

(** Identities ["A1"] and ["A1"]: the specialized dictionary is adopted and
    flagged, without a warning. *)
Example scenario_specialized_loaded :
  let r := main with_specialized lib_payload 1 (unloaded "A1") in
  fst r = Returns tt
  /\ m_PIXIE <$> mods (snd r) !! 1 = Some (Some 20)
  /\ pd_is_specialized <$> heap (snd r) !! 20 = Some true
  /\ warnings (snd r) = [].
Proof. vm_compute. repeat split. Qed.

(** Identities ["A1"] and ["A2"]: one warning, and the module's own
    dictionary is bound and installed. *)
Example scenario_reverted_to_generic :
  let r := main with_specialized lib_payload 1 (unloaded "A2") in
  fst r = Returns tt
  /\ m_PIXIE <$> mods (snd r) !! 1 = Some (Some 10)
  /\ pd_is_specialized <$> heap (snd r) !! 20 = Some false
  /\ length (warnings (snd r)) = 1.
Proof. vm_compute. repeat split. Qed.

(** The specification's selection on the scenario's group. *)
Example scenario_selection :
  DispatchSpec.select ["avx2"; "avx512"] (DispatchSpec.group_of add_data)
  = Some (["avx2"], "add_avx2")
  /\ DispatchSpec.select [] (DispatchSpec.group_of add_data)
     = Some ([], "add_base").
Proof. split; reflexivity. Qed.

Example scenario_output_dir :
  os_path_split_head "/opt/pixie/lib.so" = "/opt/pixie"
  /\ os_path_split_head "lib.so" = ""
  /\ os_path_split_head "/lib.so" = "/".
Proof. repeat split. Qed.

End ScenarioRuns.

(** * Witnesses and counterexamples *)

Lemma load_manager_identity_check_witness :
  exists r w',
    main Scenario.with_specialized Scenario.lib_payload 1
         (Scenario.unloaded "A2") = (r, w')
    /\ (SpecializedLoaded w' 1 2
        <-> pd_uuid (Scenario.lib_dict "A1") = pd_uuid (Scenario.lib_dict "A2"))
    /\ (pd_uuid (Scenario.lib_dict "A1") = pd_uuid (Scenario.lib_dict "A2") ->
          r = Returns tt
          /\ warnings w' = warnings (Scenario.unloaded "A2")
          /\ mods w' !! 1
             = Some (ModuleObj (m_name Scenario.lib_module)
                               (m_file Scenario.lib_module) (Some 20))
          /\ heap w' !! 20
             = Some (set_is_specialized true (Scenario.lib_dict "A2")))
    /\ (pd_uuid (Scenario.lib_dict "A1") <> pd_uuid (Scenario.lib_dict "A2") ->
          adopt_specialized Scenario.lib_payload 1 2
            (log_import (sbs_name Scenario.lib_module) (Scenario.unloaded "A2"))
          = (Returns false,
             log_warning
               (mismatch_msg Scenario.specialized_module Scenario.lib_module)
               (log_import (sbs_name Scenario.lib_module)
                           (Scenario.unloaded "A2")))
          /\ (r, w') = generic_load Scenario.with_specialized Scenario.lib_payload 1
                      (log_warning
                         (mismatch_msg Scenario.specialized_module
                                       Scenario.lib_module)
                         (log_import (sbs_name Scenario.lib_module)
                                     (Scenario.unloaded "A2")))
          /\ warnings w'
             = warnings (Scenario.unloaded "A2")
               ++ [mismatch_msg Scenario.specialized_module Scenario.lib_module]
          /\ (r = Returns tt ->
                exists m', mods w' !! 1 = Some m'
                  /\ m_PIXIE m' = Some (payload_PIXIE Scenario.lib_payload))
          /\ (forall e, r = Raises e ->
                mods w' = mods (Scenario.unloaded "A2"))).
Proof.
  apply (load_manager_identity_check Scenario.with_specialized
           Scenario.lib_payload 1 2 20 (Scenario.unloaded "A2")
           Scenario.lib_module Scenario.specialized_module
           (Scenario.lib_dict "A2") (Scenario.lib_dict "A1")).
  - vm_compute. reflexivity.
  - vm_compute. reflexivity.
  - vm_compute. reflexivity.
  - reflexivity.
  - vm_compute. reflexivity.
  - vm_compute. reflexivity.
  - simpl. discriminate.
Defined.

(** The identities differ and the image of [lib] lacks [add_avx2]: [main]
    warns once and then raises the [AttributeError] of the generic load.  It
    does not return, and the module is left without a dictionary, generic
    or specialized. *)
Lemma load_manager_mismatch_counterexample :
  import_module Scenario.specialized_beside_malformed
                (sbs_name Scenario.lib_module) = Returns 2
  /\ uuid_eqb (pd_uuid (Scenario.lib_dict "A1"))
              (pd_uuid (Scenario.lib_dict "A2")) = false
  /\ exists w',
       main Scenario.specialized_beside_malformed Scenario.lib_payload 1
            (Scenario.unloaded "A2")
       = (Raises (AttributeError "undefined symbol: add_avx2"), w')
       /\ warnings w'
          = [mismatch_msg Scenario.specialized_module Scenario.lib_module]
       /\ mods w' !! 1 = Some Scenario.lib_module
       /\ m_PIXIE Scenario.lib_module = None
       /\ ~ exists w'',
             main Scenario.specialized_beside_malformed Scenario.lib_payload 1
                  (Scenario.unloaded "A2")
             = (Returns tt, w'').
Proof.
  split; [vm_compute; reflexivity |]. split; [vm_compute; reflexivity |].
  exists (snd (main Scenario.specialized_beside_malformed
                    Scenario.lib_payload 1 (Scenario.unloaded "A2"))).
  split; [vm_compute; reflexivity |]. split; [vm_compute; reflexivity |].
  split; [vm_compute; reflexivity |]. split; [reflexivity |].
  intros (w'' & H). apply (f_equal fst) in H. vm_compute in H.
  discriminate H.
Qed.

(** On a host with [avx2] and [avx512] the rule selects the [avx2] variant of
    [add] alone; [main] has bound the baseline as the group's callable and
    the [avx2] variant next to it. *)
Lemma dispatch_selection_counterexample :
  exists d data',
    heap Scenario.loaded !! 10 = Some d
    /\ pd_symbols d = [("add", [("i64(i64,i64)", data')])]
    /\ bound_symbols data' = ["add_base"; "add_avx2"]
    /\ d_address data' = Some (dso_dlsym Scenario.image "add_base")
    /\ ~ binds_exactly_selected ["avx2"; "avx512"] Scenario.add_data data'.
Proof.
  eexists _, _. split; [vm_compute; reflexivity |].
  split; [reflexivity |]. split; [reflexivity |]. split; [reflexivity |].
  intros (v & _ & Hb). discriminate Hb.
Qed.

Lemma main_binds_every_variant_witness :
  exists m D d',
    mods (Scenario.unloaded "A1") !! 1 = Some m
    /\ CDLL Scenario.generic_only (m_file m) = Returns D
    /\ heap (snd (generic_load Scenario.generic_only Scenario.lib_payload 1
                               (Scenario.unloaded "A1")))
         !! payload_PIXIE Scenario.lib_payload = Some d'
    /\ Forall2
         (fun g g' =>
            fst g = fst g'
            /\ Forall2
                 (fun o o' =>
                    fst o = fst o'
                    /\ (exists proto, snd o' = resolved D proto (snd o))
                    /\ bound_symbols (snd o') = data_symbols (snd o))
                 (snd g) (snd g'))
         (pd_symbols (Scenario.lib_dict "A1")) (pd_symbols d').
Proof.
  apply (main_binds_every_variant Scenario.generic_only Scenario.lib_payload 1
           (Scenario.unloaded "A1")
           (snd (generic_load Scenario.generic_only Scenario.lib_payload 1
                              (Scenario.unloaded "A1")))
           (Scenario.lib_dict "A1")).
  - vm_compute. reflexivity.
  - vm_compute. reflexivity.
Defined.



(** A successful specialization returns [None], not an artifact; the
    artifact is the library it has written. *)
Lemma specialize_result_counterexample :
  fst (impl Scenario.generic_only 1 "host" None Scenario.loaded) = Returns VNone
  /\ length (disk (snd (impl Scenario.generic_only 1 "host" None
                             Scenario.loaded))) = 1
  /\ ~ exists a w',
         impl Scenario.generic_only 1 "host" None Scenario.loaded
         = (Returns (VArtifact a), w').
Proof.
  split; [vm_compute; reflexivity |]. split; [vm_compute; reflexivity |].
  intros (a & w' & H).
  apply (f_equal fst) in H. vm_compute in H. discriminate H.
Qed.

(** The second of two identical calls of [add_variant] returns; it raises
    no [DuplicateVariantError]. *)
Lemma add_variant_duplicate_counterexample :
  returned
    (obind (add_variant "ctypes.CFUNCTYPE(ctypes.c_long)" "add_base" "sse2"
                        (Some [("avx2", "add_avx2")]) None None None)
           (fun _ =>
              add_variant "ctypes.CFUNCTYPE(ctypes.c_long)" "add_base" "sse2"
                          (Some [("avx2", "add_avx2")]) None None None))
  = true
  /\ ~ exists e,
         obind (add_variant "ctypes.CFUNCTYPE(ctypes.c_long)" "add_base" "sse2"
                            (Some [("avx2", "add_avx2")]) None None None)
               (fun _ =>
                  add_variant "ctypes.CFUNCTYPE(ctypes.c_long)" "add_base"
                              "sse2" (Some [("avx2", "add_avx2")])
                              None None None)
         = Raises e.
Proof.
  split; [reflexivity |]. intros (e & H). discriminate H.
Qed.



Lemma specialize_target_resolution_witness :
  exists lib,
    compilations (snd (impl Scenario.generic_only 1 "host" None
                            Scenario.loaded))
    = compilations Scenario.loaded ++ [lib]
    /\ ("host" = "host" -> baseline_cpu lib = "skylake")
    /\ ("host" <> "host" -> baseline_cpu lib = "host")
    /\ (@None (list string) = None -> baseline_features lib = [])
    /\ (forall fs, None = Some fs -> baseline_features lib = fs)
    /\ call_impl Scenario.generic_only (specialize 1) None None Scenario.loaded
       = impl Scenario.generic_only 1 "host" None Scenario.loaded.
Proof.
  apply (specialize_target_resolution Scenario.generic_only 1 "host" None
           Scenario.loaded
           (ModuleObj "lib" "/opt/pixie/lib.so" (Some 10)) 10
           (bound_dict
              (Scenario.lib_dict "A1")
              [("add", [("i64(i64,i64)",
                         resolved Scenario.image
                           (CFUNCTYPE "ctypes.CFUNCTYPE(ctypes.c_long)")
                           Scenario.add_data)])]
              ["B"%byte; "B"%byte] 1)).
  - vm_compute. reflexivity.
  - reflexivity.
  - vm_compute. reflexivity.
Defined.

Lemma specialized_name_round_trip_witness :
  exists lib,
    compilations (snd (impl Scenario.generic_only 1 "znver3" (Some ["avx2"])
                            Scenario.loaded))
    = compilations Scenario.loaded ++ [lib]
    /\ library_name lib = "lib" +:+ "_pixie_specialized"
    /\ output_dir lib = os_path_split_head "/opt/pixie/lib.so"
    /\ (forall v,
          fst (impl Scenario.generic_only 1 "znver3" (Some ["avx2"])
                    Scenario.loaded) = Returns v ->
          exists art,
            disk (snd (impl Scenario.generic_only 1 "znver3" (Some ["avx2"])
                            Scenario.loaded))
            = disk Scenario.loaded ++ [(output_dir lib, library_name lib, art)])
    /\ imported (snd (main Scenario.generic_only Scenario.lib_payload 1
                           (Scenario.unloaded "A1")))
       = imported (Scenario.unloaded "A1") ++ [library_name lib]
    /\ (forall m2, specialized_lib_name m2 = library_name lib ->
          m_name m2 = "lib").
Proof.
  apply (specialized_name_round_trip Scenario.generic_only Scenario.lib_payload
           1 1 "znver3" (Some ["avx2"]) Scenario.loaded
           (Scenario.unloaded "A1")
           (ModuleObj "lib" "/opt/pixie/lib.so" (Some 10)) Scenario.lib_module
           10
           (bound_dict
              (Scenario.lib_dict "A1")
              [("add", [("i64(i64,i64)",
                         resolved Scenario.image
                           (CFUNCTYPE "ctypes.CFUNCTYPE(ctypes.c_long)")
                           Scenario.add_data)])]
              ["B"%byte; "B"%byte] 1)).
  - vm_compute. reflexivity.
  - reflexivity.
  - vm_compute. reflexivity.
  - vm_compute. reflexivity.
  - reflexivity.
Defined.

Lemma specialize_backend_failure_witness :
  exists w',
    impl Scenario.failing_backend 1 "host" None Scenario.loaded
    = (Raises RecompilationFailure, w')
    /\ heap w' = heap Scenario.loaded /\ mods w' = mods Scenario.loaded
    /\ disk w' = disk Scenario.loaded.
Proof.
  apply (specialize_backend_failure Scenario.failing_backend 1 "host" None
           Scenario.loaded
           (ModuleObj "lib" "/opt/pixie/lib.so" (Some 10)) 10
           (bound_dict
              (Scenario.lib_dict "A1")
              [("add", [("i64(i64,i64)",
                         resolved Scenario.image
                           (CFUNCTYPE "ctypes.CFUNCTYPE(ctypes.c_long)")
                           Scenario.add_data)])]
              ["B"%byte; "B"%byte] 1)).
  - vm_compute. reflexivity.
  - reflexivity.
  - vm_compute. reflexivity.
  - reflexivity.
Defined.


(** * Instances of the further properties on the scenarios *)

Lemma main_import_failure_witness :
  (is_ImportError (Exn "SyntaxError" "lib_pixie_specialized") = true ->
     main MoreScenarios.broken_import Scenario.lib_payload 1
          (Scenario.unloaded "A1")
     = generic_load MoreScenarios.broken_import Scenario.lib_payload 1
         (log_import (sbs_name Scenario.lib_module) (Scenario.unloaded "A1")))
  /\ (is_ImportError (Exn "SyntaxError" "lib_pixie_specialized") = false ->
        main MoreScenarios.broken_import Scenario.lib_payload 1
             (Scenario.unloaded "A1")
        = (Raises (Exn "SyntaxError" "lib_pixie_specialized"),
           log_import (sbs_name Scenario.lib_module) (Scenario.unloaded "A1"))
        /\ heap (snd (main MoreScenarios.broken_import Scenario.lib_payload 1
                           (Scenario.unloaded "A1")))
           = heap (Scenario.unloaded "A1")
        /\ mods (snd (main MoreScenarios.broken_import Scenario.lib_payload 1
                           (Scenario.unloaded "A1")))
           = mods (Scenario.unloaded "A1")
        /\ warnings (snd (main MoreScenarios.broken_import
                               Scenario.lib_payload 1
                               (Scenario.unloaded "A1")))
           = warnings (Scenario.unloaded "A1")).
Proof.
  apply (main_import_failure MoreScenarios.broken_import
           Scenario.lib_payload 1 (Scenario.unloaded "A1")
           Scenario.lib_module (Exn "SyntaxError" "lib_pixie_specialized")).
  - vm_compute; reflexivity.
  - reflexivity.
Defined.

Lemma main_specialized_without_PIXIE_witness :
  (main Scenario.with_specialized Scenario.lib_payload 1
     MoreScenarios.beside_plain_module =
   (Raises (AttributeError "__PIXIE__"),
    log_import (sbs_name Scenario.lib_module)
      MoreScenarios.beside_plain_module)).
Proof.
  apply (main_specialized_without_PIXIE Scenario.with_specialized
           Scenario.lib_payload 1 2 MoreScenarios.beside_plain_module
           Scenario.lib_module MoreScenarios.plain_module (Scenario.lib_dict "A1")).
  - vm_compute; reflexivity.
  - vm_compute; reflexivity.
  - vm_compute; reflexivity.
  - vm_compute; reflexivity.
  - vm_compute; reflexivity.
Defined.

Lemma adoption_side_effects_witness :
  (exists w' : world,
     main Scenario.with_specialized Scenario.lib_payload 1
       (Scenario.unloaded "A1") =
     (Returns (), w')
     /\ heap w' !! payload_PIXIE Scenario.lib_payload =
       Some (Scenario.lib_dict "A1")
       /\ (forall l : loc,
            l <> 20 -> heap w' !! l = heap (Scenario.unloaded "A1") !! l)
         /\ mods w' !! 2 = Some Scenario.specialized_module
           /\ heap w' !! 20 =
             Some (set_is_specialized true (Scenario.lib_dict "A1"))
             /\ (forall o : loc,
                  o <> 1 -> mods w' !! o = mods (Scenario.unloaded "A1") !! o)
               /\ stdout w' =
                 stdout (Scenario.unloaded "A1") ++
                 [loaded_msg Scenario.specialized_module Scenario.lib_module]
                 /\ warnings w' = warnings (Scenario.unloaded "A1")).
Proof.
  apply (adoption_side_effects Scenario.with_specialized
           Scenario.lib_payload 1 2 20 (Scenario.unloaded "A1") Scenario.lib_module
           Scenario.specialized_module (Scenario.lib_dict "A1") (Scenario.lib_dict
           "A1")).
  - vm_compute; reflexivity.
  - vm_compute; reflexivity.
  - vm_compute; reflexivity.
  - vm_compute; reflexivity.
  - vm_compute; reflexivity.
  - vm_compute; reflexivity.
  - reflexivity.
  - discriminate.
  - discriminate.
Defined.

Lemma specialize_through_adopted_module_witness :
  (exists (w' : world) (m' : module_obj) (l : loc) (d : pixie_dict) 
     (c : impl_closure) (lib : PIXIECompiler),
     main Scenario.with_specialized Scenario.lib_payload 1
       MoreScenarios.beside_loaded_specialized =
     (Returns (), w')
     /\ mods w' !! 1 = Some m'
       /\ m_PIXIE m' = Some l
         /\ heap w' !! l = Some d
           /\ pd_specialize d = Some c
             /\ compilations
                 (call_impl Scenario.with_specialized c 
                    (Some "znver3") None w').2 =
               compilations w' ++ [lib]
               /\ library_name lib =
                 sbs_name Scenario.lib_module +:+ "_pixie_specialized"
                 /\ library_name lib <> sbs_name Scenario.lib_module
                   /\ output_dir lib =
                     os_path_split_head (m_file Scenario.specialized_module)
                     /\ uuid lib = pd_uuid (Scenario.lib_dict "A1")).
Proof.
  apply (specialize_through_adopted_module Scenario.with_specialized
           Scenario.lib_payload 1 2 20 MoreScenarios.beside_loaded_specialized
           Scenario.lib_module Scenario.specialized_module
           MoreScenarios.specialized_dict (Scenario.lib_dict "A1") "znver3" None).
  - vm_compute; reflexivity.
  - vm_compute; reflexivity.
  - vm_compute; reflexivity.
  - vm_compute; reflexivity.
  - vm_compute; reflexivity.
  - vm_compute; reflexivity.
  - reflexivity.
  - discriminate.
  - reflexivity.
  - reflexivity.
Defined.



Lemma load_with_misnamed_assembler_witness :
  returned
    (exec_assemblers (payload_assemblers MoreScenarios.misnamed_payload) ∅)
  = forallb assembler_key_ok
      (payload_assemblers MoreScenarios.misnamed_payload)
  /\ (forall good fn src rest,
        payload_assemblers MoreScenarios.misnamed_payload
        = good ++ (fn, src) :: rest ->
        forallb assembler_key_ok good = true ->
        assembler_key_ok (fn, src) = false ->
        generic_load Scenario.generic_only MoreScenarios.misnamed_payload 1
                     (Scenario.unloaded "A1")
        = (Raises (KeyError fn), Scenario.unloaded "A1"))
  /\ (forallb assembler_key_ok
        (payload_assemblers MoreScenarios.misnamed_payload) = false ->
      exists good fn src rest,
        payload_assemblers MoreScenarios.misnamed_payload
        = good ++ (fn, src) :: rest
        /\ forallb assembler_key_ok good = true
        /\ assembler_key_ok (fn, src) = false
        /\ generic_load Scenario.generic_only
             MoreScenarios.misnamed_payload 1 (Scenario.unloaded "A1")
           = (Raises (KeyError fn), Scenario.unloaded "A1")).
Proof.
  apply (load_with_misnamed_assembler Scenario.generic_only
           MoreScenarios.misnamed_payload 1 (Scenario.unloaded "A1")
           Scenario.lib_module Scenario.image).
  - vm_compute; reflexivity.
  - vm_compute; reflexivity.
Defined.



Lemma generic_load_twice_witness :
  (generic_load Scenario.generic_only Scenario.lib_payload 1
     MoreScenarios.bound =
   (Raises (TypeError "eval() arg 1 must be a string"), MoreScenarios.bound)).
Proof.
  apply (generic_load_twice Scenario.generic_only Scenario.lib_payload 1
           (Scenario.unloaded "A1") MoreScenarios.bound Scenario.lib_module
           Scenario.image (Scenario.lib_dict "A1")).
  - vm_compute; reflexivity.
  - vm_compute; reflexivity.
  - vm_compute; reflexivity.
  - discriminate.
  - vm_compute; reflexivity.
Defined.

Lemma specialize_compiler_input_witness :
  (exists lib : PIXIECompiler,
     compilations
       (impl Scenario.generic_only 1 "host" None MoreScenarios.bound).2 =
     compilations MoreScenarios.bound ++ [lib]
     /\ translation_units lib =
       [{|
          tu_name := "self";
          tu_source := pd_bitcode MoreScenarios.bound_lib_dict
        |}]
       /\ export_configuration lib =
         {|
           ec_style := "embed_dso";
           ec_symbols :=
             export_table (pd_symbols MoreScenarios.bound_lib_dict)
         |}
         /\ (forall name symbol sig : string,
              In (name, symbol, sig) (ec_symbols (export_configuration lib))
              -> exists (overloads : list (string * variant_data)) 
                  (data : variant_data),
                  In (name, overloads)
                    (pd_symbols MoreScenarios.bound_lib_dict)
                  /\ In (sig, data) overloads /\ symbol = d_symbol data)
           /\ targets_features lib = [] /\ python_cext lib = true).
Proof.
  apply (specialize_compiler_input Scenario.generic_only 1 "host" None
           MoreScenarios.bound (ModuleObj "lib" "/opt/pixie/lib.so" (Some 10)) 10
           MoreScenarios.bound_lib_dict).
  - vm_compute; reflexivity.
  - reflexivity.
  - vm_compute; reflexivity.
Defined.

Lemma specialize_unloaded_module_witness :
  (impl Scenario.generic_only 1 "host" None (Scenario.unloaded "A1") =
   (Raises (AttributeError "__PIXIE__"),
    log_stdout (impl_banner Scenario.generic_only "host" None)
      (Scenario.unloaded "A1"))
   /\ compilations
       (impl Scenario.generic_only 1 "host" None (Scenario.unloaded "A1")).2 =
     compilations (Scenario.unloaded "A1")
     /\ disk
         (impl Scenario.generic_only 1 "host" None (Scenario.unloaded "A1")).2 =
       disk (Scenario.unloaded "A1")).
Proof.
  apply (specialize_unloaded_module Scenario.generic_only 1 "host" None
           (Scenario.unloaded "A1") Scenario.lib_module).
  - vm_compute; reflexivity.
  - reflexivity.
Defined.

Lemma specialize_after_load_witness :
  (exists (d' : pixie_dict) (c : impl_closure) (bc : list byte) 
     (lib : PIXIECompiler),
     heap MoreScenarios.bound !! payload_PIXIE Scenario.lib_payload = Some d'
     /\ pd_specialize d' = Some c
       /\ get_bitcode Scenario.image Scenario.lib_module = Returns bc
         /\ compilations
             (call_impl Scenario.generic_only c (Some "host") None
                MoreScenarios.bound).2 =
           compilations MoreScenarios.bound ++ [lib]
           /\ translation_units lib =
             [{| tu_name := "self"; tu_source := Some bc |}]
             /\ uuid lib = pd_uuid (Scenario.lib_dict "A1")
               /\ ec_symbols (export_configuration lib) =
                 export_table (pd_symbols (Scenario.lib_dict "A1"))
                 /\ library_name lib = sbs_name Scenario.lib_module
                   /\ output_dir lib =
                     os_path_split_head (m_file Scenario.lib_module)).
Proof.
  apply (specialize_after_load Scenario.generic_only Scenario.lib_payload 1
           (Scenario.unloaded "A1") MoreScenarios.bound Scenario.lib_module
           Scenario.image (Scenario.lib_dict "A1") "host" None).
  - vm_compute; reflexivity.
  - vm_compute; reflexivity.
  - vm_compute; reflexivity.
  - vm_compute; reflexivity.
Defined.

Lemma create_base_payload_loads_witness :
  (exists (p : payload) (w1 : world) (p2 : payload) (w2 w3 : world),
     create_base_payload (Scenario.unloaded "A1") = (Returns p, w1)
     /\ heap (Scenario.unloaded "A1") !! payload_PIXIE p = None
       /\ (forall l : loc,
            l <> payload_PIXIE p
            -> heap w1 !! l = heap (Scenario.unloaded "A1") !! l)
         /\ mods w1 = mods (Scenario.unloaded "A1")
           /\ create_base_payload w1 = (Returns p2, w2)
             /\ payload_PIXIE p2 <> payload_PIXIE p
               /\ generic_load Scenario.generic_only p 1 w1 = (Returns (), w3)
                 /\ heap w3 !! payload_PIXIE p =
                   Some
                     (set_specialize (Some (specialize 1))
                        (set_bitcode (Some ["B"%byte; "B"%byte]) PIXIE_dunder))
                   /\ mods w3 !! 1 =
                     Some
                       {|
                         m_name := m_name Scenario.lib_module;
                         m_file := m_file Scenario.lib_module;
                         m_PIXIE := Some (payload_PIXIE p)
                       |}).
Proof.
  apply (create_base_payload_loads Scenario.generic_only 1
           (Scenario.unloaded "A1") Scenario.lib_module Scenario.image ["B"%byte;
           "B"%byte]).
  - vm_compute; reflexivity.
  - vm_compute; reflexivity.
  - vm_compute; reflexivity.
Defined.

